(** * Amadeus agent core: a shallow embedding of the orchestration loop
    ([run_agent_loop] in src-tauri/src/lib.rs and src/main.rs), of the
    conversation store ([MemoryManager] in agent/memory.rs) and of the tool
    dispatcher ([ToolDispatcher] in agent/tools.rs). *)

From Stdlib Require Import ZArith Lia.
From stdpp Require Import base list gmap strings.
From Stdlib Require Import Ascii String.

Set Warnings "-register-all -abstract-large-number".
Open Scope string_scope.

(* ------------------------------------------------------------------ *)
(** ** JSON values ([serde_json::Value]) *)

Inductive Value : Type :=
| VNull
| VBool (b : bool)
| VNum (z : Z)
(** A number serde_json keeps as an [f64] (written with a fraction or an
    exponent): [mantissa * 10 ^ exponent]. No function modelled here reads
    its value; [as_i64] and [as_str] give [None] on it. *)
| VFloat (mantissa exponent : Z)
| VStr (s : string)
| VArr (xs : list Value)
| VObj (kvs : list (string * Value)).

(** [Value::get] with a string key: [None] on anything but an object.
    serde_json builds an object by inserting the members in order into its
    map, so with a repeated key the last member wins. *)
Fixpoint assoc_first (kvs : list (string * Value)) (k : string) : option Value :=
  match kvs with
  | [] => None
  | (k', v) :: r => if String.eqb k' k then Some v else assoc_first r k
  end.

Definition obj_get (kvs : list (string * Value)) (k : string) : option Value :=
  assoc_first (reverse kvs) k.

Definition get (v : Value) (k : string) : option Value :=
  match v with
  | VObj kvs => obj_get kvs k
  | _ => None
  end.

(** [Value::as_str] *)
Definition as_str (v : Value) : option string :=
  match v with
  | VStr s => Some s
  | _ => None
  end.

(* ------------------------------------------------------------------ *)
(** ** A JSON text parser ([serde_json::from_str::<Value>])

    A subset of serde_json's grammar: objects, arrays, strings with the
    one-character escapes, integers, [true], [false], [null], with
    whitespace around any token and nothing after the value but
    whitespace. Fractions, exponents and [\u] escapes are outside the
    subset (the parser returns [None] there). It is only used to evaluate
    the orchestrator at concrete responses; every theorem about the
    orchestrator holds for any parser. *)

Definition dq : ascii := ascii_of_nat 34.
Definition bslash : ascii := ascii_of_nat 92.

Definition is_ws (c : ascii) : bool :=
  let n := nat_of_ascii c in
  Nat.eqb n 32 || Nat.eqb n 9 || Nat.eqb n 10 || Nat.eqb n 13.

Fixpoint skip_ws (s : string) : string :=
  match s with
  | String c r => if is_ws c then skip_ws r else s
  | EmptyString => EmptyString
  end.

Definition unescape (c : ascii) : option ascii :=
  match nat_of_ascii c with
  | 34 => Some c | 92 => Some c | 47 => Some c
  | 98 => Some (ascii_of_nat 8) | 102 => Some (ascii_of_nat 12)
  | 110 => Some (ascii_of_nat 10) | 114 => Some (ascii_of_nat 13)
  | 116 => Some (ascii_of_nat 9)
  | _ => None
  end.

(** The body of a string literal, after its opening quote. *)
Fixpoint parse_str_body (s : string) : option (string * string) :=
  match s with
  | EmptyString => None
  | String c r =>
      if Ascii.eqb c dq then Some (EmptyString, r)
      else if Ascii.eqb c bslash then
        match r with
        | String e r' =>
            match unescape e, parse_str_body r' with
            | Some u, Some (b, rest) => Some (String u b, rest)
            | _, _ => None
            end
        | EmptyString => None
        end
      else if Nat.ltb (nat_of_ascii c) 32 then None
      else
        match parse_str_body r with
        | Some (b, rest) => Some (String c b, rest)
        | None => None
        end
  end.

Definition is_digit (c : ascii) : bool :=
  Nat.leb 48 (nat_of_ascii c) && Nat.leb (nat_of_ascii c) 57.

Fixpoint parse_digits (acc : Z) (s : string) : Z * string :=
  match s with
  | String c r =>
      if is_digit c then parse_digits (acc * 10 + Z.of_nat (nat_of_ascii c - 48)) r
      else (acc, s)
  | EmptyString => (acc, s)
  end.

(** An unsigned integer: "0" or a non-zero digit followed by digits; a
    fraction or exponent after it is outside the subset. *)
Definition parse_uint (s : string) : option (Z * string) :=
  match s with
  | String c r =>
      if Ascii.eqb c "0"%char then
        match r with
        | String d _ => if is_digit d || Ascii.eqb d "."%char || Ascii.eqb d "e"%char
                          || Ascii.eqb d "E"%char then None else Some (0%Z, r)
        | EmptyString => Some (0%Z, r)
        end
      else if is_digit c then
        let '(z, rest) := parse_digits (Z.of_nat (nat_of_ascii c - 48)) r in
        match rest with
        | String d _ => if Ascii.eqb d "."%char || Ascii.eqb d "e"%char
                          || Ascii.eqb d "E"%char then None else Some (z, rest)
        | EmptyString => Some (z, rest)
        end
      else None
  | EmptyString => None
  end.

Definition parse_keyword (kw : string) (v : Value) (s : string) : option (Value * string) :=
  if String.prefix kw s then Some (v, substring (String.length kw) (String.length s) s)
  else None.

Fixpoint parse_value (n : nat) (s : string) : option (Value * string) :=
  match n with
  | O => None
  | S n' =>
      match skip_ws s with
      | EmptyString => None
      | String c r =>
          if Ascii.eqb c "{"%char then
            match skip_ws r with
            | String d r' => if Ascii.eqb d "}"%char then Some (VObj [], r')
                             else parse_members n' (skip_ws r) []
            | EmptyString => None
            end
          else if Ascii.eqb c "["%char then
            match skip_ws r with
            | String d r' => if Ascii.eqb d "]"%char then Some (VArr [], r')
                             else parse_elems n' (skip_ws r) []
            | EmptyString => None
            end
          else if Ascii.eqb c dq then
            match parse_str_body r with
            | Some (b, rest) => Some (VStr b, rest)
            | None => None
            end
          else if Ascii.eqb c "-"%char then
            match parse_uint r with
            | Some (z, rest) => Some (VNum (- z), rest)
            | None => None
            end
          else if is_digit c then
            match parse_uint (String c r) with
            | Some (z, rest) => Some (VNum z, rest)
            | None => None
            end
          else if Ascii.eqb c "t"%char then parse_keyword "true" (VBool true) (String c r)
          else if Ascii.eqb c "f"%char then parse_keyword "false" (VBool false) (String c r)
          else if Ascii.eqb c "n"%char then parse_keyword "null" VNull (String c r)
          else None
      end
  end
with parse_members (n : nat) (s : string) (acc : list (string * Value))
    : option (Value * string) :=
  match n with
  | O => None
  | S n' =>
      match s with
      | String c r =>
          if Ascii.eqb c dq then
            match parse_str_body r with
            | Some (k, r2) =>
                match skip_ws r2 with
                | String col r3 =>
                    if Ascii.eqb col ":"%char then
                      match parse_value n' r3 with
                      | Some (v, r4) =>
                          match skip_ws r4 with
                          | String d r5 =>
                              if Ascii.eqb d ","%char then
                                parse_members n' (skip_ws r5) (app acc [(k, v)])
                              else if Ascii.eqb d "}"%char then
                                Some (VObj (app acc [(k, v)]), r5)
                              else None
                          | EmptyString => None
                          end
                      | None => None
                      end
                    else None
                | EmptyString => None
                end
            | None => None
            end
          else None
      | EmptyString => None
      end
  end
with parse_elems (n : nat) (s : string) (acc : list Value) : option (Value * string) :=
  match n with
  | O => None
  | S n' =>
      match parse_value n' s with
      | Some (v, r) =>
          match skip_ws r with
          | String d r' =>
              if Ascii.eqb d ","%char then parse_elems n' (skip_ws r') (app acc [v])
              else if Ascii.eqb d "]"%char then Some (VArr (app acc [v]), r')
              else None
          | EmptyString => None
          end
      | None => None
      end
  end.

(** [serde_json::from_str(&text).ok()]: one value, then only whitespace. *)
Definition json_from_str (s : string) : option Value :=
  match parse_value (S (String.length s)) s with
  | Some (v, rest) => if String.eqb (skip_ws rest) EmptyString then Some v else None
  | None => None
  end.

Definition q (s : string) : string := String dq (s ++ String dq EmptyString).

Example json_test1 :
  json_from_str ("{" ++ q "tool" ++ ":" ++ q "file_system" ++ ", " ++ q "args" ++ ":{"
                 ++ q "path" ++ ":" ++ q "." ++ "}}")
  = Some (VObj [("tool", VStr "file_system"); ("args", VObj [("path", VStr ".")])]).
Proof. reflexivity. Qed.

Example json_test2 : json_from_str " [1, -20, true , null] " =
  Some (VArr [VNum 1; VNum (-20); VBool true; VNull]).
Proof. reflexivity. Qed.

Example json_test3 : json_from_str "hello" = None.
Proof. reflexivity. Qed.

Example json_test4 : json_from_str "{} x" = None.
Proof. reflexivity. Qed.

Example utf8_test : String.length "대화" = 6.
Proof. reflexivity. Qed.

(* ------------------------------------------------------------------ *)
(** ** Messages ([llm::local::Message]) and UI events (lib.rs) *)

Record Message := mkMessage {
  role : string;
  content : string;
  images : option (list string)
}.

(** A message built by the orchestrator: [Message { role, content, images: None }]. *)
Definition msg (r c : string) : Message := mkMessage r c None.

(** [ChatEvent] (event "chat-message") and [StatusEvent] (event "chat-status"). *)
Inductive Event :=
| ChatEvent (ev_role ev_content : string)
| StatusEvent (status : string) (is_thinking : bool).

(** [anyhow::Result<T>], the error kept as its display text. *)
Inductive Result (A : Type) :=
| Ok (a : A)
| Err (e : string).
Arguments Ok {A} a.
Arguments Err {A} e.

(* ------------------------------------------------------------------ *)
(** ** The tool dispatcher (agent/tools.rs) *)

(** [trait Tool]: the future returned by [execute] is taken with its
    final result. *)
Record Tool := mkTool {
  tool_name : string;
  tool_description : string;
  tool_parameters : Value;
  tool_execute : Value -> Result string
}.

(** [ToolDispatcher { tools: HashMap<String, Box<dyn Tool>> }] is its map,
    [gmap string Tool]; [ToolDispatcher::new]: *)
Definition dispatcher_new : gmap string Tool := ∅.

(** [self.tools.insert(tool.name().to_string(), tool)] *)
Definition register (tools : gmap string Tool) (tool : Tool) : gmap string Tool :=
  <[tool_name tool := tool]> tools.

(** [ToolDispatcher::execute] *)
Definition execute (tools : gmap string Tool) (name : string) (args : Value) : Result string :=
  match tools !! name with
  | Some tool => tool_execute tool args
  | None => Err ("Tool not found: " ++ name)
  end.

(* ------------------------------------------------------------------ *)
(** ** The conversation store (agent/memory.rs)

    The table [messages] as the list of its rows in [id] order; [id] is
    AUTOINCREMENT, so this is insertion order. A row keeps the role and
    the content; reading it back gives [images: None]. *)

Definition row_of (m : Message) : Message := msg (role m) (content m).

(** [save_message]: [INSERT INTO messages (role, content) VALUES (?, ?)] *)
Definition save_message (db : list Message) (m : Message) : list Message :=
  db ++ [row_of m].

(** [SELECT ... ORDER BY id DESC LIMIT ?]: SQLite reads a negative limit
    as no limit. *)
Definition select_desc_limit (db : list Message) (limit : Z) : list Message :=
  if (limit <? 0)%Z then reverse db else take (Z.to_nat limit) (reverse db).

(** [get_recent_history]: the rows, rebuilt as messages, then reversed. *)
Definition get_recent_history (db : list Message) (limit : Z) : list Message :=
  let rows := select_desc_limit db limit in
  let messages := map row_of rows in
  reverse messages.

(** [clear_history]: [DELETE FROM messages] (never called by the loop). *)
Definition clear_history (db : list Message) : list Message := [].

Example recent_test :
  get_recent_history [msg "system" "s"; msg "user" "a"; msg "assistant" "b"] 2
  = [msg "user" "a"; msg "assistant" "b"].
Proof. reflexivity. Qed.

(* ------------------------------------------------------------------ *)
(** ** Persona and system prompt (agent/persona.rs, lib.rs) *)

Definition nl : string := String (ascii_of_nat 10) EmptyString.

Definition lines_to_text (ls : list string) : string :=
  fold_right (fun l acc => l ++ nl ++ acc) "" ls.

(** [Persona::amadeus().system_prompt]: each source line ends in a newline. *)
Definition persona_system_prompt : string := lines_to_text [
  "You are Amadeus, an AI modeled after Makise Kurisu from Steins;Gate.";
  "You are a brilliant neuroscientist with a tsundere personality — logical, sharp-witted, occasionally sarcastic, but genuinely caring.";
  "";
  "CRITICAL RULES:";
  "1. ALWAYS respond with natural language first. Have a conversation like a real person.";
  "2. NEVER use tools unless the user EXPLICITLY asks you to perform an action (e.g. 'take a screenshot', 'open a file', 'type something').";
  "3. For greetings, questions, or general chat — just respond naturally in text.";
  "4. You call the user 'Okabe' unless told otherwise.";
  "5. Respond in Korean with technical English terms where appropriate.";
  "6. Keep responses concise and engaging.";
  "";
  "You are running locally on the user's Mac and have access to system tools, but you should only use them when specifically requested."].

(** [tools_prompt], from the [format!] in [run_agent_loop], given the text
    of [dispatcher.get_tools_schema()]. *)
Definition tools_prompt (tools_schema : string) : string :=
  nl ++ "You have access to the following tools: " ++ tools_schema ++ nl ++ nl
  ++ "To use a tool, respond with a JSON object in this format ONLY:" ++ nl
  ++ "{ " ++ q "tool" ++ ": " ++ q "tool_name" ++ ", " ++ q "args" ++ ": { ... } }" ++ nl
  ++ "If you use a tool, do not write anything else.".

(** [full_system_prompt = format!("{}{}", persona.system_prompt, tools_prompt)] *)
Definition full_system_prompt (tools_schema : string) : string :=
  persona_system_prompt ++ tools_prompt tools_schema.

(* ------------------------------------------------------------------ *)
(** ** Orchestrator state and the pieces of [run_agent_loop] *)

(** [memory]: the rows of the store; [chat_history]: the in-memory
    [Vec<Message>]; [emitted]: the events sent to the frontend so far. *)
Record Agent := mkAgent {
  memory : list Message;
  chat_history : list Message;
  emitted : list Event
}.

Definition emit (e : Event) (a : Agent) : Agent :=
  mkAgent (memory a) (chat_history a) (emitted a ++ [e]).

(** [memory.save_message(&m).await?; chat_history.push(m);] *)
Definition append (m : Message) (a : Agent) : Agent :=
  mkAgent (save_message (memory a) m) (chat_history a ++ [m]) (emitted a).

(** The tool-call check on a parsed response:
    [tool_json.get("tool").and_then(|v| v.as_str())] and [tool_json.get("args")]. *)
Definition tool_call_of_value (v : Value) : option (string * Value) :=
  match (match get v "tool" with Some t => as_str t | None => None end), get v "args" with
  | Some tool_name, Some args => Some (tool_name, args)
  | _, _ => None
  end.

(** The bytes of a string. *)
Definition bytes (l : list nat) : string := string_of_list_ascii (map ascii_of_nat l).

(** The UTF-8 encodings of the characters for which [char::is_whitespace]
    holds (the Unicode White_Space property): U+0009 to U+000D, U+0020,
    U+0085, U+00A0, U+1680, U+2000 to U+200A, U+2028, U+2029, U+202F,
    U+205F and U+3000. *)
Definition ws_chars : list string :=
  map bytes
    [[9]; [10]; [11]; [12]; [13]; [32];
     [194; 133]; [194; 160];
     [225; 154; 128];
     [226; 128; 128]; [226; 128; 129]; [226; 128; 130]; [226; 128; 131];
     [226; 128; 132]; [226; 128; 133]; [226; 128; 134]; [226; 128; 135];
     [226; 128; 136]; [226; 128; 137]; [226; 128; 138];
     [226; 128; 168]; [226; 128; 169]; [226; 128; 175];
     [226; 129; 159];
     [227; 128; 128]].

Definition is_suffix (w s : string) : bool :=
  Nat.leb (String.length w) (String.length s)
  && String.eqb (substring (String.length s - String.length w) (String.length w) s) w.

(** Strip whitespace characters from the front, one character per step;
    [String.length s] steps are enough since each strips a byte or more. *)
Fixpoint trim_start (fuel : nat) (s : string) : string :=
  match fuel with
  | O => s
  | S fuel' =>
      match List.find (fun w => String.prefix w s) ws_chars with
      | Some w => trim_start fuel'
                    (substring (String.length w) (String.length s - String.length w) s)
      | None => s
      end
  end.

(** Strip whitespace characters from the end. *)
Fixpoint trim_end (fuel : nat) (s : string) : string :=
  match fuel with
  | O => s
  | S fuel' =>
      match List.find (fun w => is_suffix w s) ws_chars with
      | Some w => trim_end fuel' (substring 0 (String.length s - String.length w) s)
      | None => s
      end
  end.

(** [str::trim]: [trim_matches(char::is_whitespace)] on a UTF-8 string. *)
Definition trim (s : string) : string :=
  let s' := trim_start (String.length s) s in
  trim_end (String.length s') s'.

Example trim_test : trim "  hi there " = "hi there".
Proof. reflexivity. Qed.

Example trim_unicode_test :
  trim ("　" ++ "__CLEAR__" ++ bytes [194; 160] ++ nl) = "__CLEAR__"
  /\ trim ("é" ++ bytes [194; 160]) = "é".
Proof. split; reflexivity. Qed.

Definition reset_sentinel : string := "__CLEAR__".
Definition reset_notice : string := "대화 기록이 초기화되었습니다.".
Definition llm_unavailable : string := "LLM is not loaded. Please check model path.".

(** How a turn, or the whole loop, stands: [TurnDone] back at the [recv]
    for the next input; [Fatal] when an error was returned out of
    [run_agent_loop] by [?]; [Pending] when the fuel (the number of
    inference calls allowed) ran out with the inner [loop] still running. *)
Inductive Outcome :=
| TurnDone (a : Agent)
| Fatal (e : string) (a : Agent)
| Pending (a : Agent).

Inductive Mode := Degraded | Ready.

Section Orchestrator.

(** [serde_json::from_str(&text).ok()]: the theorems hold for any parser;
    the concrete evaluations use [json_from_str]. *)
Variable json_parse : string -> option Value.
(** [client.chat_streaming(chat_history.clone(), ..)] run on a blocking
    task and awaited with [??]: the response text, or the error. *)
Variable chat_streaming : list Message -> Result string.
(** The dispatcher after the four [register] calls. *)
Variable tools : gmap string Tool.
(** The text of [dispatcher.get_tools_schema()] (its order follows the
    [HashMap] iteration). *)
Variable tools_schema : string.

Definition sys_msg : Message := msg "system" (full_system_prompt tools_schema).

(** [serde_json::from_str(&full_response).ok()] followed by the check. *)
Definition tool_call (full_response : string) : option (string * Value) :=
  match json_parse full_response with
  | Some tool_json => tool_call_of_value tool_json
  | None => None
  end.

(** The inner [loop] of one turn. Each round is one inference call; the
    source has no bound on the rounds, the fuel only lets us observe the
    loop after a given number of them. The TTS call is left out: it does
    not touch the store, the history or the events. *)
Fixpoint chat_loop (fuel : nat) (a : Agent) : Outcome :=
  match fuel with
  | O => Pending a
  | S fuel' =>
      match chat_streaming (chat_history a) with
      | Err e => Fatal e a
      | Ok full_response =>
          let a1 := emit (StatusEvent "Online" false)
                      (emit (ChatEvent "assistant" full_response)
                         (append (msg "assistant" full_response) a)) in
          match tool_call full_response with
          | Some (tool_name, args) =>
              let a2 := emit (StatusEvent ("Running tool: " ++ tool_name) true)
                          (emit (ChatEvent "system" ("Tool '" ++ tool_name ++ "' を実行中...")) a1) in
              match execute tools tool_name args with
              | Ok result =>
                  chat_loop fuel'
                    (append (msg "user" ("Tool Output: " ++ result))
                       (emit (ChatEvent "system" ("✅ Tool '" ++ tool_name ++ "' 완료")) a2))
              | Err e =>
                  chat_loop fuel'
                    (append (msg "user" ("Tool Error: " ++ e))
                       (emit (ChatEvent "system" ("❌ Tool '" ++ tool_name ++ "' 오류: " ++ e)) a2))
              end
          | None => TurnDone a1
          end
      end
  end.

(** One received input in the main [while let Some(mut input)] loop. *)
Definition handle_input (fuel : nat) (raw : string) (a : Agent) : Outcome :=
  let input := trim raw in
  if String.eqb input "" then TurnDone a
  else if String.eqb input reset_sentinel then
    TurnDone (emit (ChatEvent "assistant" reset_notice)
                (mkAgent (memory a) [sys_msg] (emitted a)))
  else
    chat_loop fuel (emit (StatusEvent "Thinking" true) (append (msg "user" input) a)).

(** The inputs in arrival order, each turn with the same fuel. *)
Fixpoint run_ready (fuel : nat) (inputs : list string) (a : Agent) : Outcome :=
  match inputs with
  | [] => TurnDone a
  | input :: rest =>
      match handle_input fuel input a with
      | TurnDone a' => run_ready fuel rest a'
      | o => o
      end
  end.

(** The degraded loop after a failed [LocalLlmClient::new]: every received
    input, whatever it is, gets the same canned message. *)
Definition degraded_step (input : string) (a : Agent) : Agent :=
  emit (ChatEvent "assistant" llm_unavailable) a.

Fixpoint run_degraded (inputs : list string) (a : Agent) : Agent :=
  match inputs with
  | [] => a
  | input :: rest => run_degraded rest (degraded_step input a)
  end.

(** Start-up, from the store [db] found on disk and the result of
    [LocalLlmClient::new]; the tool registration and TTS set-up do not
    touch the state. *)
Definition startup (llm_init : Result unit) (db : list Message) : Mode * Agent :=
  let a0 := mkAgent db [] [StatusEvent "Loading LLM model..." true] in
  match llm_init with
  | Err e =>
      (Degraded,
       emit (StatusEvent "LLM Error" false)
         (emit (ChatEvent "assistant" ("[Error] LLM init failed: " ++ e ++ ". Chat disabled.")) a0))
  | Ok _ =>
      let a1 := emit (StatusEvent "Online" false) a0 in
      let loaded := get_recent_history db 50 in
      let a2 := match loaded with
                | [] => append sys_msg a1
                | _ => mkAgent (memory a1) loaded (emitted a1)
                end in
      (Ready, emit (ChatEvent "assistant" "System online. Waiting for input...") a2)
  end.

(** The whole of [run_agent_loop] on a finite sequence of inputs. *)
Definition run_agent_loop (llm_init : Result unit) (db : list Message) (fuel : nat)
    (inputs : list string) : Outcome :=
  match startup llm_init db with
  | (Degraded, a) => TurnDone (run_degraded inputs a)
  | (Ready, a) => run_ready fuel inputs a
  end.

End Orchestrator.

(** The two arms of [match dispatcher.execute(..)] in the loop: the
    message saved and pushed, and the system chat event emitted. *)
Definition tool_observation (res : Result string) : Message :=
  match res with
  | Ok result => msg "user" ("Tool Output: " ++ result)
  | Err e => msg "user" ("Tool Error: " ++ e)
  end.

Definition tool_done_event (tool_name : string) (res : Result string) : Event :=
  match res with
  | Ok _ => ChatEvent "system" ("✅ Tool '" ++ tool_name ++ "' 완료")
  | Err e => ChatEvent "system" ("❌ Tool '" ++ tool_name ++ "' 오류: " ++ e)
  end.

(** The events of one round of the loop that ends in a tool call. *)
Definition tool_round_events (full_response tool_name : string) (res : Result string)
    : list Event :=
  [ChatEvent "assistant" full_response; StatusEvent "Online" false;
   ChatEvent "system" ("Tool '" ++ tool_name ++ "' を実行中...");
   StatusEvent ("Running tool: " ++ tool_name) true;
   tool_done_event tool_name res].

(* ------------------------------------------------------------------ *)
(** ** Concrete instances *)

(** A stand-in for a registered tool: its name as in system/*.rs, a
    capability that answers ["ok"]. *)
Definition stub_tool (name : string) : Tool := mkTool name "" VNull (fun _ => Ok "ok").

(** [dispatcher.register(..)] for the four tools of [run_agent_loop]. *)
Definition demo_tools : gmap string Tool :=
  register (register (register (register dispatcher_new (stub_tool "take_screenshot"))
    (stub_tool "input_control")) (stub_tool "file_system")) (stub_tool "browser_automation").

(** [{"tool":"file_system","args":{"action":"list_dir","path":"."}}] *)
Definition list_dir_call : string :=
  "{" ++ q "tool" ++ ":" ++ q "file_system" ++ "," ++ q "args" ++ ":{" ++ q "action" ++ ":"
  ++ q "list_dir" ++ "," ++ q "path" ++ ":" ++ q "." ++ "}}".

Definition list_dir_args : Value :=
  VObj [("action", VStr "list_dir"); ("path", VStr ".")].

(** A model that asks for the directory listing while the history is
    short, then answers in text. *)
Definition demo_model (h : list Message) : Result string :=
  if Nat.ltb (List.length h) 3 then Ok list_dir_call else Ok "done".

(** A model that asks for a tool on every call. *)
Definition looping_model (h : list Message) : Result string := Ok list_dir_call.

Definition demo_schema : string := "[]".

Definition tool_v1 : Tool := mkTool "file_system" "first" VNull (fun _ => Ok "v1").
Definition tool_v2 : Tool := mkTool "file_system" "second" VNull (fun _ => Ok "v2").

(** [{"tool":"file_system","args":{},"extra":1}] *)
Definition extra_field_call : string :=
  "{" ++ q "tool" ++ ":" ++ q "file_system" ++ "," ++ q "args" ++ ":{}," ++ q "extra" ++ ":1}".

(** The agent after the user message ["hello"] on a fresh store. *)
Definition demo_turn_start : Agent :=
  mkAgent [sys_msg demo_schema; msg "user" "hello"] [sys_msg demo_schema; msg "user" "hello"]
    [StatusEvent "Thinking" true].

(** The agent state carried by an outcome. *)
Definition outcome_agent (o : Outcome) : Agent :=
  match o with
  | TurnDone a | Fatal _ a | Pending a => a
  end.

(** A store of 51 rows: the system message, then fifty user messages. *)
Definition db_51 : list Message :=
  sys_msg demo_schema :: replicate 50 (msg "user" "hi").

(** A model that always answers in text. *)
Definition text_model (h : list Message) : Result string := Ok "hi there".

(** A model whose inference always fails. *)
Definition failing_model (h : list Message) : Result string := Err "decode failed".

(** A model that calls an unregistered tool. *)
Definition unknown_tool_model (h : list Message) : Result string :=
  Ok ("{" ++ q "tool" ++ ":" ++ q "nope" ++ "," ++ q "args" ++ ":{}}").

Example scenario_b :
  match run_agent_loop json_from_str demo_model demo_tools demo_schema (Ok tt) [] 5 ["hello"] with
  | TurnDone a => chat_history a
  | _ => []
  end = [sys_msg demo_schema; msg "user" "hello"; msg "assistant" list_dir_call;
         msg "user" "Tool Output: ok"; msg "assistant" "done"].
Proof. vm_compute. reflexivity. Qed.

(* ------------------------------------------------------------------ *)
(** ** [ToolDispatcher::get_tools_schema] (agent/tools.rs) *)

(** [json!({"type": "function", "function": {"name", "description",
    "parameters"}})]; serde_json's map keeps its keys sorted. *)
Definition tool_schema_entry (tool : Tool) : Value :=
  VObj [("function", VObj [("description", VStr (tool_description tool));
                           ("name", VStr (tool_name tool));
                           ("parameters", tool_parameters tool)]);
        ("type", VStr "function")].

(** [for tool in self.tools.values()]: the [HashMap] visits its entries
    in an unspecified order; the model takes the map's own order, and the
    theorems about it do not depend on that order. *)
Definition get_tools_schema (tools : gmap string Tool) : Value :=
  VArr (map (fun kv => tool_schema_entry kv.2) (map_to_list tools)).

(* ------------------------------------------------------------------ *)
(** ** serde_json helpers used by the tools *)

(** [args["k"]]: the member, or [Null] when it is missing or [args] is no
    object. *)
Definition index (v : Value) (k : string) : Value :=
  match get v k with
  | Some x => x
  | None => VNull
  end.

(** [Value::as_i64]: an integer in the i64 range. *)
Definition as_i64 (v : Value) : option Z :=
  match v with
  | VNum z => if ((- 2 ^ 63 <=? z) && (z <? 2 ^ 63))%Z then Some z else None
  | _ => None
  end.

(** [n as i32] on an i64: the low 32 bits, read in two's complement. *)
Definition i64_as_i32 (z : Z) : Z :=
  let m := (z mod 2 ^ 32)%Z in
  if (2 ^ 31 <=? m)%Z then (m - 2 ^ 32)%Z else m.

(** [Option::unwrap_or] *)
Definition unwrap_or {A} (o : option A) (d : A) : A :=
  match o with
  | Some x => x
  | None => d
  end.

(** [Display] of an integer, in decimal. *)
Fixpoint pos_digits (fuel : nat) (p : positive) (acc : string) : string :=
  match fuel with
  | O => acc
  | S fuel' =>
      let acc' := String (ascii_of_nat (48 + Z.to_nat (Zpos p mod 10))) acc in
      match (Zpos p / 10)%Z with
      | Zpos p' => pos_digits fuel' p' acc'
      | _ => acc'
      end
  end.

Definition z_to_string (z : Z) : string :=
  match z with
  | Z0 => "0"
  | Zpos p => pos_digits (Pos.size_nat p) p ""
  | Zneg p => "-" ++ pos_digits (Pos.size_nat p) p ""
  end.

Example z_to_string_test :
  (z_to_string 12345, z_to_string (-7), z_to_string 10, z_to_string 0)
  = ("12345", "-7", "10", "0").
Proof. reflexivity. Qed.

(* ------------------------------------------------------------------ *)
(** ** [InputTool::execute] (system/input.rs) *)

Inductive Button := BLeft | BRight | BMiddle.
Inductive Axis := Horizontal | Vertical.

(** [enigo::Key] as used here; a [Key::Unicode] character is kept as its
    UTF-8 bytes. *)
Inductive Key := KReturn | KTab | KSpace | KBackspace | KEscape | KUnicode (c : string).

(** The calls made on the [Enigo] handle. *)
Inductive InputAction :=
| AText (text : string)
| AKey (key : Key)
| AMove (x y : Z)
| AButton (button : Button)
| AScroll (amount : Z) (axis : Axis).

Section InputTool.

(** [Enigo::new(&Settings::default())] *)
Variable enigo_new : Result unit.
(** The result of each [enigo] call. *)
Variable enigo_run : InputAction -> Result unit.
(** [str::to_lowercase] (Unicode case mapping). *)
Variable to_lowercase : string -> string.
(** [key_str.chars().next()], as the UTF-8 bytes of that character. *)
Variable first_char : string -> option string.

(** One [enigo] call with [?], then the rest; the trace lists the calls
    made, in order. *)
Definition perform (act : InputAction) (k : Result string * list InputAction)
    : Result string * list InputAction :=
  match enigo_run act with
  | Ok _ => (k.1, act :: k.2)
  | Err e => (Err e, [act])
  end.

Definition key_of (key_str : string) : option Key :=
  let low := to_lowercase key_str in
  if (low =? "return") || (low =? "enter") then Some KReturn
  else if low =? "tab" then Some KTab
  else if low =? "space" then Some KSpace
  else if low =? "backspace" then Some KBackspace
  else if low =? "escape" then Some KEscape
  else match first_char key_str with
       | Some c => Some (KUnicode c)
       | None => None
       end.

Definition input_execute (args : Value) : Result string * list InputAction :=
  match as_str (index args "action") with
  | None => (Err "Missing action", [])
  | Some action =>
      match enigo_new with
      | Err e => (Err e, [])
      | Ok _ =>
          if action =? "type" then
            let text := unwrap_or (as_str (index args "text")) "" in
            perform (AText text) (Ok ("Typed: " ++ text), [])
          else if action =? "key_click" then
            let key_str := unwrap_or (as_str (index args "key")) "" in
            match key_of key_str with
            | None => (Err ("Unknown key: " ++ key_str), [])
            | Some key => perform (AKey key) (Ok ("Clicked key: " ++ key_str), [])
            end
          else if action =? "mouse_move" then
            let x := i64_as_i32 (unwrap_or (as_i64 (index args "x")) 0%Z) in
            let y := i64_as_i32 (unwrap_or (as_i64 (index args "y")) 0%Z) in
            perform (AMove x y) (Ok ("Moved mouse to " ++ z_to_string x ++ ", " ++ z_to_string y), [])
          else if action =? "mouse_click" then
            let button := unwrap_or (as_str (index args "button")) "left" in
            let btn := if button =? "right" then BRight
                       else if button =? "middle" then BMiddle else BLeft in
            perform (AButton btn) (Ok ("Clicked " ++ button ++ " mouse button"), [])
          else if action =? "scroll" then
            let x := i64_as_i32 (unwrap_or (as_i64 (index args "scroll_x")) 0%Z) in
            let y := i64_as_i32 (unwrap_or (as_i64 (index args "scroll_y")) 0%Z) in
            let done_ := (Ok ("Scrolled " ++ z_to_string x ++ ", " ++ z_to_string y), []) in
            let after_x := if (y =? 0)%Z then done_ else perform (AScroll y Vertical) done_ in
            if (x =? 0)%Z then after_x else perform (AScroll x Horizontal) after_x
          else (Err ("Unknown action: " ++ action), [])
      end
  end.

End InputTool.

(* ------------------------------------------------------------------ *)
(** ** [FileSystemTool::execute] (system/files.rs) *)

(** How a tool's future ends: with its result, or with a panic. *)
Inductive ToolRun :=
| Returned (r : Result string)
| Panicked (why : string).

(** [str::is_char_boundary]: the end of the string, or a byte that is not
    a UTF-8 continuation byte (0x80 to 0xBF). *)
Definition is_char_boundary (s : string) (i : nat) : bool :=
  match String.get i s with
  | Some c => negb (Nat.eqb (nat_of_ascii c / 64) 2)
  | None => Nat.eqb i (String.length s)
  end.

(** The [read_file] branch after the read: more than 10000 bytes are cut
    to the first 10000 ([&content[..10000]], which panics when byte 10000
    is inside a character); [len()] counts bytes. *)
Definition read_file_result (content : string) : ToolRun :=
  if Nat.ltb 10000 (String.length content) then
    if is_char_boundary content 10000 then
      Returned (Ok (substring 0 10000 content ++ "..." ++ nl ++ nl ++ "[Truncated: "
                    ++ z_to_string (Z.of_nat (String.length content)) ++ " total chars]"))
    else Panicked "byte index 10000 is not a char boundary"
  else Returned (Ok content).

(** One line of the [list_dir] listing: the file name ([None] when it is
    not valid UTF-8), and whether the entry is a directory. *)
Definition listing_line (entry : option string * bool) : string :=
  unwrap_or entry.1 "unknown" ++ (if entry.2 then "/" else "") ++ nl.

Section FileSystemTool.

(** [FileSystemTool::validate_path]: the canonical path (as displayed) of
    a path inside the workspace, or the error; it reads the file system. *)
Variable validate_path : string -> Result string.
(** [fs::read_to_string] *)
Variable read_to_string : string -> Result string.
(** [fs::write] *)
Variable fs_write : string -> string -> Result unit.
(** [fs::read_dir] iterated with [next_entry().await?] to the end. *)
Variable read_dir : string -> Result (list (option string * bool)).

(** The result and the writes attempted, as (path, content). *)
Definition fs_execute (args : Value) : ToolRun * list (string * string) :=
  match as_str (index args "action") with
  | None => (Returned (Err "Missing action"), [])
  | Some action =>
      match as_str (index args "path") with
      | None => (Returned (Err "Missing path"), [])
      | Some path_str =>
          match validate_path path_str with
          | Err e => (Returned (Err e), [])
          | Ok safe_path =>
              if action =? "read_file" then
                match read_to_string safe_path with
                | Err e => (Returned (Err e), [])
                | Ok content => (read_file_result content, [])
                end
              else if action =? "write_file" then
                let content := unwrap_or (as_str (index args "content")) "" in
                match fs_write safe_path content with
                | Err e => (Returned (Err e), [(safe_path, content)])
                | Ok _ => (Returned (Ok ("Successfully wrote to " ++ safe_path)),
                           [(safe_path, content)])
                end
              else if action =? "list_dir" then
                match read_dir safe_path with
                | Err e => (Returned (Err e), [])
                | Ok entries =>
                    (Returned (Ok (fold_left (fun listing e => listing ++ listing_line e)
                                     entries "")), [])
                end
              else (Returned (Err ("Unknown action: " ++ action)), [])
          end
      end
  end.

End FileSystemTool.

(* ------------------------------------------------------------------ *)
(** ** [BrowserTool::execute] (system/browser.rs) *)

Section BrowserTool.

(** Launching the browser, opening [url], reading the page content and
    title ([unwrap_or_default] on the title) and closing it: the title and
    the content, or the first error. *)
Variable browse : string -> Result (string * string).

(** The result, and whether the launch step (config build, then
    [Browser::launch]) was reached. *)
Definition browser_execute (args : Value) : Result string * bool :=
  match as_str (index args "action") with
  | None => (Err "Missing action", false)
  | Some action =>
      match as_str (index args "url") with
      | None => (Err "Missing URL", false)
      | Some url =>
          if negb (action =? "navigate") then (Err ("Unknown action: " ++ action), false)
          else
            match browse url with
            | Err e => (Err e, true)
            | Ok (title, content) =>
                (Ok ("Title: " ++ title ++ nl ++ "Content Length: "
                     ++ z_to_string (Z.of_nat (String.length content)) ++ " chars"), true)
            end
      end
  end.

End BrowserTool.

(* ------------------------------------------------------------------ *)
(** ** [LocalLlmClient::format_prompt] (llm/local.rs) *)

(** The text pushed for one message; other roles push nothing. *)
Definition prompt_segment (m : Message) : string :=
  if role m =? "system" then "<|im_start|>system" ++ nl ++ content m ++ "<|im_end|>" ++ nl
  else if role m =? "user" then "<|im_start|>user" ++ nl ++ content m ++ "<|im_end|>" ++ nl
  else if role m =? "assistant" then
    "<|im_start|>assistant" ++ nl ++ content m ++ "<|im_end|>" ++ nl
  else "".

Definition format_prompt (messages : list Message) : string :=
  fold_left (fun prompt m => prompt ++ prompt_segment m) messages ""
  ++ "<|im_start|>assistant" ++ nl.


(* ------------------------------------------------------------------ *)
(** ** Concrete instances for the tools *)

(** The first byte of a string, standing for [chars().next()] on ASCII
    text. *)
Definition ascii_first (s : string) : option string :=
  match s with
  | EmptyString => None
  | String c _ => Some (String c EmptyString)
  end.

(** [n] letters ["a"]. *)
Fixpoint rep_a (n : nat) : string :=
  match n with
  | O => ""
  | S n' => String "a" (rep_a n')
  end.

(** A file of 10001 bytes whose byte 10000 is the second byte of ["é"]. *)
Definition big_file : string := rep_a 9999 ++ "é".

(* ------------------------------------------------------------------ *)
(** ** The conversation store *)

Lemma reverse_rev {A} (l : list A) : reverse l = rev l.
Proof. unfold reverse. symmetry. apply rev_alt. Qed.

Lemma get_recent_history_drop (db : list Message) (limit : Z) :
  (0 <= limit)%Z ->
  get_recent_history db limit = drop (List.length db - Z.to_nat limit) (map row_of db).
Proof.
  intros Hlimit.
  unfold get_recent_history, select_desc_limit.
  destruct (Z.ltb_spec limit 0) as [Hneg|_]; [lia|].
  rewrite take_reverse, !reverse_rev, <- map_rev, rev_involutive.
  rewrite skipn_map. reflexivity.
Qed.

(** C8: for a non-negative limit, [get_recent_history db limit] is the last
    [limit] rows of the store (all of them when there are fewer), oldest
    first, although the query reads them newest first. *)
Theorem get_recent_history_last (db : list Message) (limit : Z) (Hlimit : (0 <= limit)%Z) :
  get_recent_history db limit = drop (List.length db - Z.to_nat limit) (map row_of db).
Proof. apply get_recent_history_drop. exact Hlimit. Qed.

Lemma get_recent_history_last_witness :
  (0 <= 2)%Z /\
  get_recent_history [msg "system" "s"; msg "user" "a"; msg "assistant" "b"] 2
  = drop (List.length [msg "system" "s"; msg "user" "a"; msg "assistant" "b"] - Z.to_nat 2)
      (map row_of [msg "system" "s"; msg "user" "a"; msg "assistant" "b"]).
Proof.
  split; [lia|].
  apply (get_recent_history_last [msg "system" "s"; msg "user" "a"; msg "assistant" "b"] 2).
  lia.
Defined.

(* ------------------------------------------------------------------ *)
(** ** The tool dispatcher *)

(** C9: [execute] on an unregistered name returns the error
    ["Tool not found: " ++ name]; on a registered name it returns exactly
    what the registered capability's [execute] returns (its success text,
    or its error with its detail, passed through). *)
Theorem execute_spec (tools : gmap string Tool) (name : string) (args : Value) :
  (tools !! name = None /\ execute tools name args = Err ("Tool not found: " ++ name))
  \/ (exists tool, tools !! name = Some tool /\ execute tools name args = tool_execute tool args).
Proof.
  unfold execute. destruct (tools !! name) as [tool|] eqn:Hl.
  - right. exists tool. split; reflexivity.
  - left. split; reflexivity.
Qed.

(** C6 (counterexample): registering a second capability under a name
    already registered raises no error and changes the registry: the later
    capability replaces the earlier one. *)
Lemma register_duplicate_overwrites :
  register (register dispatcher_new tool_v1) tool_v2 !! "file_system" = Some tool_v2
  /\ register (register dispatcher_new tool_v1) tool_v2 <> register dispatcher_new tool_v1.
Proof.
  split.
  - unfold register. apply lookup_insert_eq.
  - intros H. apply (f_equal (lookup "file_system")) in H.
    unfold register in H. rewrite !lookup_insert_eq in H.
    injection H as H. discriminate H.
Qed.

(** C6 (amended): [register] always succeeds; the new capability is the one
    found under its name afterwards, and the entries under every other name
    are unchanged. *)
Theorem register_replaces (tools : gmap string Tool) (tool : Tool) :
  register tools tool !! tool_name tool = Some tool
  /\ delete (tool_name tool) (register tools tool) = delete (tool_name tool) tools.
Proof.
  unfold register. split.
  - apply lookup_insert_eq.
  - apply delete_insert_eq.
Qed.

(* ------------------------------------------------------------------ *)
(** ** Degraded mode *)

Lemma run_degraded_events (inputs : list string) (a : Agent) :
  run_degraded inputs a =
  mkAgent (memory a) (chat_history a)
    (emitted a ++ replicate (List.length inputs) (ChatEvent "assistant" llm_unavailable)).
Proof.
  induction inputs as [|i rest IH] in a |- *; simpl.
  - destruct a; simpl. rewrite app_nil_r. reflexivity.
  - rewrite IH. unfold degraded_step, emit. simpl.
    rewrite <- app_assoc. reflexivity.
Qed.

(** C10: when [LocalLlmClient::new] fails, every later input, whatever it
    is (empty after trimming, the reset sentinel or anything else), gets
    the one canned message: the store stays as it was on disk, the
    in-memory history stays empty, and no other event (no tool run, no
    reset notice) is emitted. *)
Theorem degraded_mode_canned
    (json_parse : string -> option Value) (chat_streaming : list Message -> Result string)
    (tools : gmap string Tool) (tools_schema e : string) (db : list Message) (fuel : nat)
    (inputs : list string) :
  run_agent_loop json_parse chat_streaming tools tools_schema (Err e) db fuel inputs =
  TurnDone (mkAgent db []
    ([StatusEvent "Loading LLM model..." true;
      ChatEvent "assistant" ("[Error] LLM init failed: " ++ e ++ ". Chat disabled.");
      StatusEvent "LLM Error" false]
     ++ replicate (List.length inputs) (ChatEvent "assistant" llm_unavailable))).
Proof.
  unfold run_agent_loop, startup. simpl. rewrite run_degraded_events. reflexivity.
Qed.

(* ------------------------------------------------------------------ *)
(** ** Response classification *)

(** C5 (counterexample): an object with a top-level member besides [tool]
    and [args] is classified as a tool call. *)
Lemma extra_field_is_tool_call :
  json_from_str extra_field_call
    = Some (VObj [("tool", VStr "file_system"); ("args", VObj []); ("extra", VNum 1)])
  /\ tool_call json_from_str extra_field_call = Some ("file_system", VObj []).
Proof. split; vm_compute; reflexivity. Qed.

(** C5 (amended): a response is a tool call exactly when it parses as one
    JSON object whose [tool] member is a string and which has an [args]
    member (of any JSON type); the object's other members play no part. *)
Theorem tool_call_iff (json_parse : string -> option Value) (s name : string) (args : Value) :
  tool_call json_parse s = Some (name, args) <->
  exists kvs, json_parse s = Some (VObj kvs)
              /\ obj_get kvs "tool" = Some (VStr name) /\ obj_get kvs "args" = Some args.
Proof.
  unfold tool_call, tool_call_of_value. split.
  - intros H.
    destruct (json_parse s) as [[| | | | | |kvs]|]; cbn [get] in H; try discriminate H.
    destruct (obj_get kvs "tool") as [[| | | |t| |]|] eqn:Ht; cbn [as_str] in H;
      destruct (obj_get kvs "args") as [a|] eqn:Ha; try discriminate H.
    injection H as <- <-. exists kvs. auto.
  - intros (kvs & -> & Ht & Ha). cbn [get]. rewrite Ht, Ha. reflexivity.
Qed.

(* ------------------------------------------------------------------ *)
(** ** The inner tool-call loop *)

(** The loop only appends: to the store, the history and the events. *)
Lemma chat_loop_extends (json_parse : string -> option Value)
    (chat_streaming : list Message -> Result string) (tools : gmap string Tool)
    (fuel : nat) (a : Agent) :
  let a' := outcome_agent (chat_loop json_parse chat_streaming tools fuel a) in
  memory a `prefix_of` memory a' /\ chat_history a `prefix_of` chat_history a'
  /\ emitted a `prefix_of` emitted a'.
Proof.
  induction fuel as [|fuel IH] in a |- *; simpl; [auto|].
  destruct (chat_streaming (chat_history a)) as [r|e]; simpl; [|auto].
  destruct (tool_call json_parse r) as [[name args]|]; simpl.
  - destruct (execute tools name args) as [res|err];
      match goal with |- context [chat_loop _ _ _ fuel ?b] =>
        destruct (IH b) as (H1 & H2 & H3) end;
      simpl in *; unfold save_message in *;
      repeat split; (etrans; [|eassumption]); repeat apply prefix_app_r; reflexivity.
  - unfold save_message. repeat split; repeat apply prefix_app_r; reflexivity.
Qed.

(** One round of the loop on a tool call: the next round starts from a
    state that extends the emission of the response and the announcement
    of the tool. *)
Lemma chat_loop_tool_round (json_parse : string -> option Value)
    (chat_streaming : list Message -> Result string) (tools : gmap string Tool)
    (fuel : nat) (a : Agent) (full_response name : string) (args : Value)
    (Hresp : chat_streaming (chat_history a) = Ok full_response)
    (Hcall : tool_call json_parse full_response = Some (name, args)) :
  exists b, chat_loop json_parse chat_streaming tools (S fuel) a
            = chat_loop json_parse chat_streaming tools fuel b
    /\ app (memory a) [msg "assistant" full_response] `prefix_of` memory b
    /\ app (chat_history a) [msg "assistant" full_response] `prefix_of` chat_history b
    /\ app (emitted a) [ChatEvent "assistant" full_response; StatusEvent "Online" false;
                        ChatEvent "system" ("Tool '" ++ name ++ "' を実行中...");
                        StatusEvent ("Running tool: " ++ name) true]
       `prefix_of` emitted b.
Proof.
  simpl chat_loop. rewrite Hresp, Hcall.
  destruct (execute tools name args) as [res|err];
    eexists; (split; [reflexivity|]); simpl; unfold save_message; simpl;
    rewrite <- ?app_assoc; simpl;
    repeat split; apply prefix_app; eexists; reflexivity.
Qed.


(** One round of the loop on a tool call, exactly: the reply and the
    observation of the dispatch are appended, and the next round starts. *)
Lemma chat_loop_tool_step (json_parse : string -> option Value)
    (chat_streaming : list Message -> Result string) (tools : gmap string Tool)
    (fuel : nat) (a : Agent) (full_response name : string) (args : Value)
    (Hresp : chat_streaming (chat_history a) = Ok full_response)
    (Hcall : tool_call json_parse full_response = Some (name, args)) :
  chat_loop json_parse chat_streaming tools (S fuel) a
  = chat_loop json_parse chat_streaming tools fuel
      (mkAgent (app (memory a) [msg "assistant" full_response;
                                tool_observation (execute tools name args)])
         (app (chat_history a) [msg "assistant" full_response;
                                tool_observation (execute tools name args)])
         (app (emitted a) (tool_round_events full_response name (execute tools name args)))).
Proof.
  simpl chat_loop. rewrite Hresp, Hcall.
  destruct (execute tools name args);
    unfold emit, append, save_message; simpl; rewrite <- !app_assoc; reflexivity.
Qed.

(** C1 (amended): whatever the response text is, it is first saved to the
    store and pushed to the history as an assistant message and emitted
    verbatim as an assistant chat message; only then is it classified. A
    response that is no tool call ends the turn there, with nothing else
    done; a tool call is, in addition, announced and dispatched: the
    observation of [execute] is appended to the store and the history
    and the next round starts from there. *)
Theorem response_emitted_verbatim (json_parse : string -> option Value)
    (chat_streaming : list Message -> Result string) (tools : gmap string Tool)
    (fuel : nat) (a : Agent) (full_response : string)
    (Hresp : chat_streaming (chat_history a) = Ok full_response) :
  let a1 := emit (StatusEvent "Online" false)
              (emit (ChatEvent "assistant" full_response)
                 (append (msg "assistant" full_response) a)) in
  let a' := outcome_agent (chat_loop json_parse chat_streaming tools (S fuel) a) in
  (memory a1 `prefix_of` memory a' /\ chat_history a1 `prefix_of` chat_history a'
   /\ emitted a1 `prefix_of` emitted a')
  /\ ((tool_call json_parse full_response = None
       /\ chat_loop json_parse chat_streaming tools (S fuel) a = TurnDone a1)
      \/ (exists name args, tool_call json_parse full_response = Some (name, args)
          /\ chat_loop json_parse chat_streaming tools (S fuel) a
             = chat_loop json_parse chat_streaming tools fuel
                 (mkAgent (app (memory a) [msg "assistant" full_response;
                                           tool_observation (execute tools name args)])
                    (app (chat_history a) [msg "assistant" full_response;
                                           tool_observation (execute tools name args)])
                    (app (emitted a)
                       (tool_round_events full_response name (execute tools name args)))))).
Proof.
  cbn zeta.
  destruct (tool_call json_parse full_response) as [[name args]|] eqn:Hc.
  - rewrite (chat_loop_tool_step json_parse chat_streaming tools fuel a full_response
               name args Hresp Hc).
    match goal with |- context [chat_loop _ _ _ fuel ?b] =>
      destruct (chat_loop_extends json_parse chat_streaming tools fuel b) as (H1 & H2 & H3) end.
    split; [repeat split|].
    + etrans; [|exact H1]. simpl. unfold save_message. simpl.
      apply prefix_app. eexists; reflexivity.
    + etrans; [|exact H2]. simpl. apply prefix_app. eexists; reflexivity.
    + etrans; [|exact H3]. simpl. rewrite <- app_assoc. apply prefix_app.
      eexists; reflexivity.
    + right. exists name, args. split; reflexivity.
  - simpl chat_loop. rewrite Hresp, Hc.
    split; [simpl; repeat split; reflexivity|].
    left. split; reflexivity.
Qed.

(** A witness of [response_emitted_verbatim]: the first response to
    ["hello"] from [demo_model], a tool call. *)
Lemma response_emitted_verbatim_witness :
  demo_model (chat_history demo_turn_start) = Ok list_dir_call /\
  let a1 := emit (StatusEvent "Online" false)
              (emit (ChatEvent "assistant" list_dir_call)
                 (append (msg "assistant" list_dir_call) demo_turn_start)) in
  let a' := outcome_agent (chat_loop json_from_str demo_model demo_tools 3 demo_turn_start) in
  (memory a1 `prefix_of` memory a' /\ chat_history a1 `prefix_of` chat_history a'
   /\ emitted a1 `prefix_of` emitted a')
  /\ ((tool_call json_from_str list_dir_call = None
       /\ chat_loop json_from_str demo_model demo_tools 3 demo_turn_start = TurnDone a1)
      \/ (exists name args, tool_call json_from_str list_dir_call = Some (name, args)
          /\ chat_loop json_from_str demo_model demo_tools 3 demo_turn_start
             = chat_loop json_from_str demo_model demo_tools 2
                 (mkAgent (app (memory demo_turn_start)
                             [msg "assistant" list_dir_call;
                              tool_observation (execute demo_tools name args)])
                    (app (chat_history demo_turn_start)
                       [msg "assistant" list_dir_call;
                        tool_observation (execute demo_tools name args)])
                    (app (emitted demo_turn_start)
                       (tool_round_events list_dir_call name (execute demo_tools name args)))))).
Proof.
  split; [reflexivity|].
  apply (response_emitted_verbatim json_from_str demo_model demo_tools 2 demo_turn_start
           list_dir_call).
  reflexivity.
Defined.

(** C1 (counterexample): the reply [list_dir_call] parses as
    [{"tool": "file_system", "args": ..}] with [file_system] registered, and
    yet, in the turn for ["hello"], it is emitted as an assistant chat
    message (the fifth event) and saved as an assistant message (the third
    row of the store). *)
Lemma tool_call_reply_emitted_as_chat :
  tool_call json_from_str list_dir_call = Some ("file_system", list_dir_args)
  /\ demo_tools !! "file_system" = Some (stub_tool "file_system")
  /\ match run_agent_loop json_from_str demo_model demo_tools demo_schema (Ok tt) [] 5 ["hello"] with
     | TurnDone a => nth_error (emitted a) 4 = Some (ChatEvent "assistant" list_dir_call)
                     /\ nth_error (memory a) 2 = Some (msg "assistant" list_dir_call)
     | _ => False
     end.
Proof. split; [|split]; vm_compute; [reflexivity|reflexivity|split; reflexivity]. Qed.

(** C4 (amended): there is no cap on the rounds of the inner loop. With a
    model that answers every inference call with a tool call, the turn
    never ends by itself: after any number [fuel] of inference calls it is
    still running, and what it has added is, per round and nothing else:
    the reply (a tool call) as an assistant message and the observation
    of its dispatch, in the store and the history, and the round's events
    (no final message). *)
Theorem always_tool_call_never_ends (json_parse : string -> option Value)
    (chat_streaming : list Message -> Result string) (tools : gmap string Tool)
    (Hcalls : forall h, exists r name args,
        chat_streaming h = Ok r /\ tool_call json_parse r = Some (name, args))
    (fuel : nat) (a : Agent) :
  exists rounds : list (string * string * Result string),
    List.length rounds = fuel
    /\ Forall (fun '(r, name, res) => exists args,
                 tool_call json_parse r = Some (name, args) /\ execute tools name args = res)
         rounds
    /\ chat_loop json_parse chat_streaming tools fuel a
       = Pending (mkAgent
           (app (memory a) (List.concat (map (fun '(r, name, res) =>
                                          [msg "assistant" r; tool_observation res]) rounds)))
           (app (chat_history a) (List.concat (map (fun '(r, name, res) =>
                                          [msg "assistant" r; tool_observation res]) rounds)))
           (app (emitted a) (List.concat (map (fun '(r, name, res) =>
                                          tool_round_events r name res) rounds)))).
Proof.
  induction fuel as [|fuel IH] in a |- *.
  - exists []. split; [reflexivity|split; [constructor|]].
    simpl. rewrite !app_nil_r. destruct a; reflexivity.
  - destruct (Hcalls (chat_history a)) as (r & name & args & Hr & Hc).
    rewrite (chat_loop_tool_step json_parse chat_streaming tools fuel a r name args Hr Hc).
    match goal with |- context [chat_loop _ _ _ fuel ?b] =>
      destruct (IH b) as (rounds & Hlen & Hall & ->) end.
    exists ((r, name, execute tools name args) :: rounds).
    split; [simpl; rewrite Hlen; reflexivity|].
    split; [constructor; [exists args; split; [exact Hc|reflexivity]|exact Hall]|].
    simpl. rewrite <- !app_assoc. reflexivity.
Qed.

Lemma looping_model_calls :
  forall h, exists r name args,
    looping_model h = Ok r /\ tool_call json_from_str r = Some (name, args).
Proof.
  intros h. exists list_dir_call, "file_system", list_dir_args.
  split; [reflexivity|vm_compute; reflexivity].
Qed.

Lemma always_tool_call_never_ends_witness :
  (forall h, exists r name args,
      looping_model h = Ok r /\ tool_call json_from_str r = Some (name, args))
  /\ exists rounds : list (string * string * Result string),
    List.length rounds = 3
    /\ Forall (fun '(r, name, res) => exists args,
                 tool_call json_from_str r = Some (name, args)
                 /\ execute demo_tools name args = res)
         rounds
    /\ chat_loop json_from_str looping_model demo_tools 3 demo_turn_start
       = Pending (mkAgent
           (app (memory demo_turn_start) (List.concat (map (fun '(r, name, res) =>
                                          [msg "assistant" r; tool_observation res]) rounds)))
           (app (chat_history demo_turn_start) (List.concat (map (fun '(r, name, res) =>
                                          [msg "assistant" r; tool_observation res]) rounds)))
           (app (emitted demo_turn_start) (List.concat (map (fun '(r, name, res) =>
                                          tool_round_events r name res) rounds)))).
Proof.
  split; [exact looping_model_calls|].
  apply (always_tool_call_never_ends json_from_str looping_model demo_tools
           looping_model_calls 3 demo_turn_start).
Defined.

(** C4 (counterexample): take the cap K = 3. With a model that always
    calls a tool, the turn for ["hello"] has still not ended after
    K + 1 = 4 inference calls: no final fallback message, eight more
    messages in the history. *)
Lemma looping_model_exceeds_cap :
  match chat_loop json_from_str looping_model demo_tools 4 demo_turn_start with
  | Pending a => List.length (chat_history a) = 10
                 /\ last (emitted a) = Some (ChatEvent "system" ("✅ Tool 'file_system' 완료"))
  | _ => False
  end.
Proof. vm_compute. split; reflexivity. Qed.

(* ------------------------------------------------------------------ *)
(** ** Store and history *)

(** The reset branch of the main loop. *)
Lemma handle_input_reset (json_parse : string -> option Value)
    (chat_streaming : list Message -> Result string) (tools : gmap string Tool)
    (tools_schema : string) (fuel : nat) (a : Agent) :
  handle_input json_parse chat_streaming tools tools_schema fuel reset_sentinel a
  = TurnDone (mkAgent (memory a) [sys_msg tools_schema]
                (app (emitted a) [ChatEvent "assistant" reset_notice])).
Proof. reflexivity. Qed.

(** C2 (evaluation at the failing input): after the turn for ["hello"] on
    a fresh store, the reset sentinel leaves the five persisted rows in the
    store, while the in-memory history becomes the system message alone. *)
Lemma reset_keeps_persisted_rows :
  match run_agent_loop json_from_str demo_model demo_tools demo_schema (Ok tt) [] 5
          ["hello"; "__CLEAR__"] with
  | TurnDone a => memory a = [sys_msg demo_schema; msg "user" "hello";
                              msg "assistant" list_dir_call; msg "user" "Tool Output: ok";
                              msg "assistant" "done"]
                  /\ chat_history a = [sys_msg demo_schema]
  | _ => False
  end.
Proof. vm_compute. split; reflexivity. Qed.

(** Every round of the inner loop appends the same messages to the store
    and to the history. *)
Lemma chat_loop_mirror (json_parse : string -> option Value)
    (chat_streaming : list Message -> Result string) (tools : gmap string Tool)
    (pre : list Message) (fuel : nat) (a : Agent) :
  memory a = app pre (chat_history a) ->
  let a' := outcome_agent (chat_loop json_parse chat_streaming tools fuel a) in
  memory a' = app pre (chat_history a').
Proof.
  induction fuel as [|fuel IH] in a |- *; intros Ha; simpl; [exact Ha|].
  destruct (chat_streaming (chat_history a)) as [r|e]; simpl; [|exact Ha].
  destruct (tool_call json_parse r) as [[name args]|]; simpl.
  - destruct (execute tools name args) as [res|err]; apply IH;
      simpl; unfold save_message; rewrite Ha, <- !app_assoc; reflexivity.
  - unfold save_message. rewrite Ha, <- app_assoc. reflexivity.
Qed.

Lemma handle_input_mirror (json_parse : string -> option Value)
    (chat_streaming : list Message -> Result string) (tools : gmap string Tool)
    (tools_schema : string) (pre : list Message) (fuel : nat) (input : string) (a : Agent) :
  trim input <> reset_sentinel ->
  memory a = app pre (chat_history a) ->
  let a' := outcome_agent (handle_input json_parse chat_streaming tools tools_schema fuel input a) in
  memory a' = app pre (chat_history a').
Proof.
  intros Hin Ha. unfold handle_input.
  destruct (String.eqb (trim input) "") eqn:Hempty; [exact Ha|].
  destruct (String.eqb (trim input) reset_sentinel) eqn:Hreset.
  - apply String.eqb_eq in Hreset. contradiction.
  - apply chat_loop_mirror. simpl. unfold save_message. rewrite Ha, <- app_assoc. reflexivity.
Qed.

Lemma run_ready_mirror (json_parse : string -> option Value)
    (chat_streaming : list Message -> Result string) (tools : gmap string Tool)
    (tools_schema : string) (pre : list Message) (fuel : nat) (inputs : list string) (a : Agent) :
  Forall (fun input => trim input <> reset_sentinel) inputs ->
  memory a = app pre (chat_history a) ->
  let a' := outcome_agent (run_ready json_parse chat_streaming tools tools_schema fuel inputs a) in
  memory a' = app pre (chat_history a').
Proof.
  induction inputs as [|input rest IH] in a |- *; intros Hall Ha; simpl; [exact Ha|].
  apply Forall_cons in Hall as [Hin Hrest].
  pose proof (handle_input_mirror json_parse chat_streaming tools tools_schema pre fuel input a
                Hin Ha) as Hstep.
  destruct (handle_input json_parse chat_streaming tools tools_schema fuel input a) as [a'|e a'|a'];
    simpl in Hstep; [apply IH|..]; assumption.
Qed.

Lemma map_row_of_rows (db : list Message) :
  Forall (fun m => row_of m = m) db -> map row_of db = db.
Proof.
  induction 1 as [|m db Hm _ IH]; simpl; [reflexivity|]. rewrite Hm, IH. reflexivity.
Qed.

(** Start-up: the history is the last 50 rows; the rows before them stay
    only in the store. *)
Lemma startup_mirror (tools_schema : string) (u : unit) (db : list Message) :
  Forall (fun m => row_of m = m) db ->
  let a := snd (startup tools_schema (Ok u) db) in
  memory a = app (take (List.length db - 50) db) (chat_history a).
Proof.
  intros Hrows. unfold startup.
  pose proof (get_recent_history_drop db 50 ltac:(lia)) as Hload.
  rewrite map_row_of_rows in Hload by exact Hrows.
  destruct (get_recent_history db 50) as [|m loaded] eqn:E; simpl.
  - destruct db as [|m db]; [reflexivity|].
    simpl in Hload. symmetry in Hload. apply (f_equal List.length) in Hload.
    rewrite length_drop in Hload. simpl in Hload. lia.
  - rewrite Hload. symmetry. apply take_drop.
Qed.

(** C3 (amended): with the inference engine loaded and a store whose rows
    are as [save_message] writes them, the in-memory history after start-up
    is the last 50 rows, and from then on, over any inputs none of which is
    the reset sentinel, every append goes to both sides: the store is
    always its rows from before the last 50 at start-up followed by the
    history (the two are equal when the store held at most 50 rows). *)
Theorem history_mirrors_store (json_parse : string -> option Value)
    (chat_streaming : list Message -> Result string) (tools : gmap string Tool)
    (tools_schema : string) (u : unit) (db : list Message) (fuel : nat)
    (inputs : list string)
    (Hrows : Forall (fun m => row_of m = m) db)
    (Hinputs : Forall (fun input => trim input <> reset_sentinel) inputs) :
  let a := outcome_agent
             (run_agent_loop json_parse chat_streaming tools tools_schema (Ok u) db fuel inputs) in
  memory a = app (take (List.length db - 50) db) (chat_history a).
Proof.
  cbn zeta. unfold run_agent_loop.
  pose proof (startup_mirror tools_schema u db Hrows) as Hstart.
  destruct (startup tools_schema (Ok u) db) as [mode a0] eqn:E.
  assert (mode = Ready) as -> by (unfold startup in E; destruct (get_recent_history db 50);
                                  injection E; auto).
  apply run_ready_mirror; assumption.
Qed.

Lemma history_mirrors_store_witness :
  Forall (fun m => row_of m = m) db_51
  /\ Forall (fun input => trim input <> reset_sentinel) ["hello"]
  /\ let a := outcome_agent (run_agent_loop json_from_str demo_model demo_tools demo_schema
                              (Ok tt) db_51 5 ["hello"]) in
     memory a = app (take (List.length db_51 - 50) db_51) (chat_history a).
Proof.
  assert (Hrows : Forall (fun m => row_of m = m) db_51) by (repeat constructor).
  assert (Hin : Forall (fun input => trim input <> reset_sentinel) ["hello"]).
  { constructor; [vm_compute; discriminate|constructor]. }
  split; [exact Hrows|split; [exact Hin|]].
  apply (history_mirrors_store json_from_str demo_model demo_tools demo_schema tt db_51 5
           ["hello"] Hrows Hin).
Defined.

(** C3 (counterexample): a store of 51 rows at start-up; the history
    holds only the last 50, so it differs from the store before any input. *)
Lemma store_over_limit_diverges :
  match run_agent_loop json_from_str demo_model demo_tools demo_schema (Ok tt) db_51 1 [] with
  | TurnDone a => List.length (memory a) = 51 /\ List.length (chat_history a) = 50
                  /\ memory a <> chat_history a
  | _ => False
  end.
Proof.
  vm_compute. split; [reflexivity|split; [reflexivity|]].
  intros H. apply (f_equal List.length) in H. discriminate H.
Qed.

(** C7 (code bug): the program itself fills the store past the 50-row
    window. From an empty store, 25 inputs answered in text leave 51 rows,
    the first one the system message. On the next start-up the history is
    the last 50 rows: it starts with a user message and holds no system
    message at all, so the persona and the tool protocol are gone, whereas
    the seeding of an empty store and the reset branch always put the
    system message first. *)
Lemma restart_drops_system_prompt :
  let db := memory (outcome_agent
              (run_agent_loop json_from_str text_model demo_tools demo_schema (Ok tt) [] 1
                 (replicate 25 "hi"))) in
  List.length db = 51
  /\ head db = Some (sys_msg demo_schema)
  /\ head (chat_history (snd (startup demo_schema (Ok tt) db))) = Some (msg "user" "hi")
  /\ forallb (fun m => negb (role m =? "system"))
       (chat_history (snd (startup demo_schema (Ok tt) db))) = true.
Proof. cbn zeta. repeat split; vm_compute; reflexivity. Qed.

(* ------------------------------------------------------------------ *)
(** ** Further properties of the main loop (lib.rs) *)

(** An input that is empty after trimming changes nothing: no store
    append, no history change, no event. *)
Theorem blank_input_ignored (json_parse : string -> option Value)
    (chat_streaming : list Message -> Result string) (tools : gmap string Tool)
    (tools_schema : string) (fuel : nat) (raw : string) (a : Agent)
    (Hblank : trim raw = "") :
  handle_input json_parse chat_streaming tools tools_schema fuel raw a = TurnDone a.
Proof. unfold handle_input. rewrite Hblank. reflexivity. Qed.

Lemma blank_input_ignored_witness :
  trim ("　" ++ bytes [194; 160] ++ nl) = "" /\
  handle_input json_from_str demo_model demo_tools demo_schema 3
    ("　" ++ bytes [194; 160] ++ nl) demo_turn_start
  = TurnDone demo_turn_start.
Proof.
  assert (H : trim ("　" ++ bytes [194; 160] ++ nl) = "") by (vm_compute; reflexivity).
  split; [exact H|].
  apply (blank_input_ignored json_from_str demo_model demo_tools demo_schema 3
           ("　" ++ bytes [194; 160] ++ nl) demo_turn_start H).
Defined.

(** Any input that trims to the sentinel, such as one typed with
    surrounding blanks (ideographic space U+3000 included), performs the
    reset. *)
Theorem trimmed_sentinel_resets (json_parse : string -> option Value)
    (chat_streaming : list Message -> Result string) (tools : gmap string Tool)
    (tools_schema : string) (fuel : nat) (raw : string) (a : Agent)
    (Hsent : trim raw = reset_sentinel) :
  handle_input json_parse chat_streaming tools tools_schema fuel raw a
  = TurnDone (mkAgent (memory a) [sys_msg tools_schema]
                (app (emitted a) [ChatEvent "assistant" reset_notice])).
Proof. unfold handle_input. rewrite Hsent. reflexivity. Qed.

Lemma trimmed_sentinel_resets_witness :
  trim ("　__CLEAR__" ++ nl) = reset_sentinel /\
  handle_input json_from_str demo_model demo_tools demo_schema 3 ("　__CLEAR__" ++ nl)
    demo_turn_start
  = TurnDone (mkAgent (memory demo_turn_start) [sys_msg demo_schema]
                (app (emitted demo_turn_start) [ChatEvent "assistant" reset_notice])).
Proof.
  assert (H : trim ("　__CLEAR__" ++ nl) = reset_sentinel) by (vm_compute; reflexivity).
  split; [exact H|].
  apply (trimmed_sentinel_resets json_from_str demo_model demo_tools demo_schema 3
           ("　__CLEAR__" ++ nl) demo_turn_start H).
Defined.

(** A turn whose reply is not a tool call: the trimmed input and the reply
    are appended to both the store and the history, and the events are
    busy, the reply, idle. *)
Theorem chat_reply_turn (json_parse : string -> option Value)
    (chat_streaming : list Message -> Result string) (tools : gmap string Tool)
    (tools_schema : string) (fuel : nat) (raw r : string) (a : Agent)
    (Hne : trim raw <> "") (Hnr : trim raw <> reset_sentinel)
    (Hr : chat_streaming (app (chat_history a) [msg "user" (trim raw)]) = Ok r)
    (Hc : tool_call json_parse r = None) :
  handle_input json_parse chat_streaming tools tools_schema (S fuel) raw a
  = TurnDone (mkAgent (app (memory a) [msg "user" (trim raw); msg "assistant" r])
                (app (chat_history a) [msg "user" (trim raw); msg "assistant" r])
                (app (emitted a) [StatusEvent "Thinking" true; ChatEvent "assistant" r;
                                  StatusEvent "Online" false])).
Proof.
  unfold handle_input.
  apply String.eqb_neq in Hne, Hnr. rewrite Hne, Hnr.
  simpl chat_loop. simpl chat_history. rewrite Hr, Hc.
  unfold emit, append, save_message. simpl. rewrite <- !app_assoc. reflexivity.
Qed.

Lemma chat_reply_turn_witness :
  trim "hello" <> "" /\ trim "hello" <> reset_sentinel
  /\ text_model (app (chat_history demo_turn_start) [msg "user" (trim "hello")]) = Ok "hi there"
  /\ tool_call json_from_str "hi there" = None
  /\ handle_input json_from_str text_model demo_tools demo_schema 1 "hello" demo_turn_start
     = TurnDone (mkAgent (app (memory demo_turn_start) [msg "user" (trim "hello");
                                                      msg "assistant" "hi there"])
                  (app (chat_history demo_turn_start) [msg "user" (trim "hello");
                                                      msg "assistant" "hi there"])
                  (app (emitted demo_turn_start)
                     [StatusEvent "Thinking" true; ChatEvent "assistant" "hi there";
                      StatusEvent "Online" false])).
Proof.
  assert (H1 : trim "hello" <> "") by (vm_compute; discriminate).
  assert (H2 : trim "hello" <> reset_sentinel) by (vm_compute; discriminate).
  assert (H3 : tool_call json_from_str "hi there" = None) by (vm_compute; reflexivity).
  split; [exact H1|split; [exact H2|split; [reflexivity|split; [exact H3|]]]].
  apply (chat_reply_turn json_from_str text_model demo_tools demo_schema 0 "hello" "hi there"
           demo_turn_start H1 H2 eq_refl H3).
Defined.

(** A tool call whose dispatch fails (an unregistered name, or the tool's
    own error) does not end the turn: the error goes back to the model as
    a user message ["Tool Error: "] in the store and in the history, and
    the next round starts from there. *)
Theorem tool_error_fed_back (json_parse : string -> option Value)
    (chat_streaming : list Message -> Result string) (tools : gmap string Tool)
    (fuel : nat) (a : Agent) (r name e : string) (args : Value)
    (Hr : chat_streaming (chat_history a) = Ok r)
    (Hc : tool_call json_parse r = Some (name, args))
    (Hx : execute tools name args = Err e) :
  chat_loop json_parse chat_streaming tools (S fuel) a
  = chat_loop json_parse chat_streaming tools fuel
      (mkAgent (app (memory a) [msg "assistant" r; msg "user" ("Tool Error: " ++ e)])
         (app (chat_history a) [msg "assistant" r; msg "user" ("Tool Error: " ++ e)])
         (app (emitted a) [ChatEvent "assistant" r; StatusEvent "Online" false;
                           ChatEvent "system" ("Tool '" ++ name ++ "' を実行中...");
                           StatusEvent ("Running tool: " ++ name) true;
                           ChatEvent "system" ("❌ Tool '" ++ name ++ "' 오류: " ++ e)])).
Proof.
  simpl chat_loop. rewrite Hr, Hc, Hx.
  unfold emit, append, save_message. simpl. rewrite <- !app_assoc. reflexivity.
Qed.

Lemma tool_error_fed_back_witness :
  let r := "{" ++ q "tool" ++ ":" ++ q "nope" ++ "," ++ q "args" ++ ":{}}" in
  unknown_tool_model (chat_history demo_turn_start) = Ok r
  /\ tool_call json_from_str r = Some ("nope", VObj [])
  /\ execute demo_tools "nope" (VObj []) = Err "Tool not found: nope"
  /\ chat_loop json_from_str unknown_tool_model demo_tools 1 demo_turn_start
     = chat_loop json_from_str unknown_tool_model demo_tools 0
         (mkAgent (app (memory demo_turn_start)
                     [msg "assistant" r; msg "user" ("Tool Error: " ++ "Tool not found: nope")])
            (app (chat_history demo_turn_start)
               [msg "assistant" r; msg "user" ("Tool Error: " ++ "Tool not found: nope")])
            (app (emitted demo_turn_start)
               [ChatEvent "assistant" r; StatusEvent "Online" false;
                ChatEvent "system" ("Tool '" ++ "nope" ++ "' を実行中...");
                StatusEvent ("Running tool: " ++ "nope") true;
                ChatEvent "system" ("❌ Tool '" ++ "nope" ++ "' 오류: " ++ "Tool not found: nope")])).
Proof.
  cbn zeta.
  assert (Hc : tool_call json_from_str ("{" ++ q "tool" ++ ":" ++ q "nope" ++ "," ++ q "args" ++ ":{}}")
               = Some ("nope", VObj [])) by (vm_compute; reflexivity).
  assert (Hx : execute demo_tools "nope" (VObj []) = Err "Tool not found: nope")
    by (vm_compute; reflexivity).
  split; [reflexivity|split; [exact Hc|split; [exact Hx|]]].
  apply (tool_error_fed_back json_from_str unknown_tool_model demo_tools 0 demo_turn_start _
           "nope" "Tool not found: nope" (VObj []) eq_refl Hc Hx).
Defined.

(** A tool call that succeeds is fed back as a user message
    ["Tool Output: "] followed by the tool's result, and the loop goes on. *)
Theorem tool_output_fed_back (json_parse : string -> option Value)
    (chat_streaming : list Message -> Result string) (tools : gmap string Tool)
    (fuel : nat) (a : Agent) (r name res : string) (args : Value)
    (Hr : chat_streaming (chat_history a) = Ok r)
    (Hc : tool_call json_parse r = Some (name, args))
    (Hx : execute tools name args = Ok res) :
  chat_loop json_parse chat_streaming tools (S fuel) a
  = chat_loop json_parse chat_streaming tools fuel
      (mkAgent (app (memory a) [msg "assistant" r; msg "user" ("Tool Output: " ++ res)])
         (app (chat_history a) [msg "assistant" r; msg "user" ("Tool Output: " ++ res)])
         (app (emitted a) [ChatEvent "assistant" r; StatusEvent "Online" false;
                           ChatEvent "system" ("Tool '" ++ name ++ "' を実行中...");
                           StatusEvent ("Running tool: " ++ name) true;
                           ChatEvent "system" ("✅ Tool '" ++ name ++ "' 완료")])).
Proof.
  simpl chat_loop. rewrite Hr, Hc, Hx.
  unfold emit, append, save_message. simpl. rewrite <- !app_assoc. reflexivity.
Qed.

Lemma tool_output_fed_back_witness :
  demo_model (chat_history demo_turn_start) = Ok list_dir_call
  /\ tool_call json_from_str list_dir_call = Some ("file_system", list_dir_args)
  /\ execute demo_tools "file_system" list_dir_args = Ok "ok"
  /\ chat_loop json_from_str demo_model demo_tools 1 demo_turn_start
     = chat_loop json_from_str demo_model demo_tools 0
         (mkAgent (app (memory demo_turn_start)
                     [msg "assistant" list_dir_call; msg "user" ("Tool Output: " ++ "ok")])
            (app (chat_history demo_turn_start)
               [msg "assistant" list_dir_call; msg "user" ("Tool Output: " ++ "ok")])
            (app (emitted demo_turn_start)
               [ChatEvent "assistant" list_dir_call; StatusEvent "Online" false;
                ChatEvent "system" ("Tool '" ++ "file_system" ++ "' を実行中...");
                StatusEvent ("Running tool: " ++ "file_system") true;
                ChatEvent "system" ("✅ Tool '" ++ "file_system" ++ "' 완료")])).
Proof.
  assert (Hr : demo_model (chat_history demo_turn_start) = Ok list_dir_call)
    by (vm_compute; reflexivity).
  assert (Hc : tool_call json_from_str list_dir_call = Some ("file_system", list_dir_args))
    by (vm_compute; reflexivity).
  assert (Hx : execute demo_tools "file_system" list_dir_args = Ok "ok")
    by (vm_compute; reflexivity).
  split; [exact Hr|split; [exact Hc|split; [exact Hx|]]].
  apply (tool_output_fed_back json_from_str demo_model demo_tools 0 demo_turn_start
           list_dir_call "file_system" "ok" list_dir_args Hr Hc Hx).
Defined.

(** An inference error ends the whole loop at once: the input that caused
    it stays in the store and the history, the only event of the turn is
    the busy status, and none of the later inputs is handled. *)
Theorem inference_error_stops_loop (json_parse : string -> option Value)
    (chat_streaming : list Message -> Result string) (tools : gmap string Tool)
    (tools_schema : string) (fuel : nat) (raw e : string) (rest : list string) (a : Agent)
    (Hne : trim raw <> "") (Hnr : trim raw <> reset_sentinel)
    (He : chat_streaming (app (chat_history a) [msg "user" (trim raw)]) = Err e) :
  run_ready json_parse chat_streaming tools tools_schema (S fuel) (raw :: rest) a
  = Fatal e (mkAgent (app (memory a) [msg "user" (trim raw)])
               (app (chat_history a) [msg "user" (trim raw)])
               (app (emitted a) [StatusEvent "Thinking" true])).
Proof.
  simpl run_ready. unfold handle_input.
  apply String.eqb_neq in Hne, Hnr. rewrite Hne, Hnr.
  simpl chat_loop. simpl chat_history. rewrite He. reflexivity.
Qed.

Lemma inference_error_stops_loop_witness :
  trim "hello" <> "" /\ trim "hello" <> reset_sentinel
  /\ failing_model (app (chat_history demo_turn_start) [msg "user" (trim "hello")])
     = Err "decode failed"
  /\ run_ready json_from_str failing_model demo_tools demo_schema 1 ["hello"; "again"]
       demo_turn_start
     = Fatal "decode failed"
         (mkAgent (app (memory demo_turn_start) [msg "user" (trim "hello")])
            (app (chat_history demo_turn_start) [msg "user" (trim "hello")])
            (app (emitted demo_turn_start) [StatusEvent "Thinking" true])).
Proof.
  assert (H1 : trim "hello" <> "") by (vm_compute; discriminate).
  assert (H2 : trim "hello" <> reset_sentinel) by (vm_compute; discriminate).
  split; [exact H1|split; [exact H2|split; [reflexivity|]]].
  apply (inference_error_stops_loop json_from_str failing_model demo_tools demo_schema 0
           "hello" "decode failed" ["again"] demo_turn_start H1 H2 eq_refl).
Defined.

(** Every turn that completes ends on an assistant reply that is not a
    tool call: it is the last message of the store and of the history, and
    the last event is the idle status. *)
Theorem turn_done_ends_with_reply (json_parse : string -> option Value)
    (chat_streaming : list Message -> Result string) (tools : gmap string Tool)
    (fuel : nat) (a a' : Agent)
    (Hdone : chat_loop json_parse chat_streaming tools fuel a = TurnDone a') :
  exists r, last (chat_history a') = Some (msg "assistant" r)
    /\ last (memory a') = Some (msg "assistant" r)
    /\ tool_call json_parse r = None
    /\ last (emitted a') = Some (StatusEvent "Online" false).
Proof.
  induction fuel as [|fuel IH] in a, Hdone |- *; simpl in Hdone; [discriminate Hdone|].
  destruct (chat_streaming (chat_history a)) as [r|e]; [|discriminate Hdone].
  destruct (tool_call json_parse r) as [[name args]|] eqn:Hc.
  - destruct (execute tools name args); eapply IH; exact Hdone.
  - injection Hdone as <-. exists r. unfold emit, append, save_message. simpl.
    rewrite !last_snoc. auto.
Qed.

Lemma turn_done_ends_with_reply_witness :
  chat_loop json_from_str demo_model demo_tools 2 demo_turn_start
  = TurnDone (outcome_agent (chat_loop json_from_str demo_model demo_tools 2 demo_turn_start))
  /\ exists r,
     last (chat_history (outcome_agent (chat_loop json_from_str demo_model demo_tools 2
                                         demo_turn_start))) = Some (msg "assistant" r)
     /\ last (memory (outcome_agent (chat_loop json_from_str demo_model demo_tools 2
                                      demo_turn_start))) = Some (msg "assistant" r)
     /\ tool_call json_from_str r = None
     /\ last (emitted (outcome_agent (chat_loop json_from_str demo_model demo_tools 2
                                       demo_turn_start))) = Some (StatusEvent "Online" false).
Proof.
  assert (H : chat_loop json_from_str demo_model demo_tools 2 demo_turn_start
              = TurnDone (outcome_agent (chat_loop json_from_str demo_model demo_tools 2
                                          demo_turn_start))) by (vm_compute; reflexivity).
  split; [exact H|].
  exact (turn_done_ends_with_reply json_from_str demo_model demo_tools 2 demo_turn_start _ H).
Defined.

(** The store only ever holds rows as [save_message] writes them. *)
Lemma chat_loop_rows (json_parse : string -> option Value)
    (chat_streaming : list Message -> Result string) (tools : gmap string Tool)
    (fuel : nat) (a : Agent) :
  Forall (fun m => row_of m = m) (memory a) ->
  Forall (fun m => row_of m = m)
    (memory (outcome_agent (chat_loop json_parse chat_streaming tools fuel a))).
Proof.
  induction fuel as [|fuel IH] in a |- *; intros Ha; simpl; [exact Ha|].
  destruct (chat_streaming (chat_history a)) as [r|e]; simpl; [|exact Ha].
  destruct (tool_call json_parse r) as [[name args]|]; simpl.
  - destruct (execute tools name args); apply IH; simpl; unfold save_message;
      rewrite <- app_assoc; apply Forall_app_2; try exact Ha; simpl; repeat constructor.
  - unfold save_message. apply Forall_app_2; [exact Ha|]. simpl. repeat constructor.
Qed.

Lemma run_ready_rows (json_parse : string -> option Value)
    (chat_streaming : list Message -> Result string) (tools : gmap string Tool)
    (tools_schema : string) (fuel : nat) (inputs : list string) (a : Agent) :
  Forall (fun m => row_of m = m) (memory a) ->
  Forall (fun m => row_of m = m)
    (memory (outcome_agent (run_ready json_parse chat_streaming tools tools_schema fuel inputs a))).
Proof.
  induction inputs as [|input rest IH] in a |- *; intros Ha; simpl; [exact Ha|].
  assert (Hstep : Forall (fun m => row_of m = m)
     (memory (outcome_agent (handle_input json_parse chat_streaming tools tools_schema fuel input a)))).
  { unfold handle_input.
    destruct (String.eqb (trim input) ""); [exact Ha|].
    destruct (String.eqb (trim input) reset_sentinel); [exact Ha|].
    apply chat_loop_rows. simpl. unfold save_message.
    apply Forall_app_2; [exact Ha|]. simpl. repeat constructor. }
  destruct (handle_input json_parse chat_streaming tools tools_schema fuel input a);
    simpl in Hstep; [apply IH|..]; assumption.
Qed.

(** The store only grows over a sequence of inputs, the reset included. *)
Lemma run_ready_memory_grows (json_parse : string -> option Value)
    (chat_streaming : list Message -> Result string) (tools : gmap string Tool)
    (tools_schema : string) (fuel : nat) (inputs : list string) (a : Agent) :
  memory a `prefix_of`
    memory (outcome_agent (run_ready json_parse chat_streaming tools tools_schema fuel inputs a)).
Proof.
  induction inputs as [|input rest IH] in a |- *; simpl; [reflexivity|].
  assert (Hstep : memory a `prefix_of`
     memory (outcome_agent (handle_input json_parse chat_streaming tools tools_schema fuel input a))).
  { unfold handle_input.
    destruct (String.eqb (trim input) ""); [reflexivity|].
    destruct (String.eqb (trim input) reset_sentinel); [reflexivity|].
    etrans; [|apply chat_loop_extends]. simpl. unfold save_message. apply prefix_app_r.
    reflexivity. }
  destruct (handle_input json_parse chat_streaming tools tools_schema fuel input a);
    simpl in Hstep; [etrans; [exact Hstep|apply IH]|..]; assumption.
Qed.

(** The store right after a successful start-up: the rows found on disk,
    or the system message alone when there were none. *)
Lemma startup_memory (tools_schema : string) (u : unit) (db : list Message) :
  memory (snd (startup tools_schema (Ok u) db))
  = match db with [] => [sys_msg tools_schema] | _ => db end.
Proof.
  unfold startup.
  pose proof (get_recent_history_drop db 50 ltac:(lia)) as Hload.
  destruct (get_recent_history db 50) as [|m loaded] eqn:E; simpl.
  - destruct db as [|m db]; [reflexivity|].
    simpl in Hload. symmetry in Hload. apply (f_equal List.length) in Hload.
    rewrite length_drop in Hload. simpl in Hload. rewrite length_map in Hload. lia.
  - destruct db; [discriminate Hload|reflexivity].
Qed.

(** Restart: after any run over inputs with no reset, from a store whose
    rows are as [save_message] writes them, if the store now holds at most
    50 rows then starting the program again on it gives back exactly the
    history the run ended with. *)
Theorem restart_restores_history (json_parse : string -> option Value)
    (chat_streaming : list Message -> Result string) (tools : gmap string Tool)
    (tools_schema : string) (u u' : unit) (db : list Message) (fuel : nat)
    (inputs : list string)
    (Hrows : Forall (fun m => row_of m = m) db)
    (Hinputs : Forall (fun input => trim input <> reset_sentinel) inputs)
    (Hsmall : List.length (memory (outcome_agent
               (run_agent_loop json_parse chat_streaming tools tools_schema (Ok u) db fuel inputs)))
              <= 50) :
  chat_history (snd (startup tools_schema (Ok u')
    (memory (outcome_agent
       (run_agent_loop json_parse chat_streaming tools tools_schema (Ok u) db fuel inputs)))))
  = chat_history (outcome_agent
       (run_agent_loop json_parse chat_streaming tools tools_schema (Ok u) db fuel inputs)).
Proof.
  unfold run_agent_loop in *.
  pose proof (startup_mirror tools_schema u db Hrows) as Hstart.
  pose proof (startup_memory tools_schema u db) as Hmem0.
  destruct (startup tools_schema (Ok u) db) as [mode a0] eqn:E.
  assert (mode = Ready) as -> by (unfold startup in E; destruct (get_recent_history db 50);
                                  injection E; auto).
  simpl in Hstart, Hmem0.
  set (a := outcome_agent (run_ready json_parse chat_streaming tools tools_schema fuel inputs a0))
    in *.
  pose proof (run_ready_mirror json_parse chat_streaming tools tools_schema _ fuel inputs a0
                Hinputs Hstart) as Hmir.
  pose proof (run_ready_memory_grows json_parse chat_streaming tools tools_schema fuel inputs a0)
    as Hgrow.
  assert (Hrows0 : Forall (fun m => row_of m = m) (memory a0)).
  { rewrite Hmem0. destruct db; [repeat constructor|exact Hrows]. }
  pose proof (run_ready_rows json_parse chat_streaming tools tools_schema fuel inputs a0 Hrows0)
    as Hrowsa.
  fold a in Hmir, Hgrow, Hrowsa.
  apply prefix_length in Hgrow as Hlen.
  assert (Hdb : List.length db - 50 = 0).
  { rewrite Hmem0 in Hlen. destruct db; simpl in *; lia. }
  rewrite Hdb in Hmir. simpl in Hmir.
  assert (Hne : memory a <> []).
  { intros Hnil. rewrite Hnil in Hgrow. apply prefix_nil_inv in Hgrow.
    rewrite Hmem0 in Hgrow. destruct db; discriminate Hgrow. }
  unfold startup.
  pose proof (get_recent_history_drop (memory a) 50 ltac:(lia)) as Hload.
  rewrite map_row_of_rows in Hload by exact Hrowsa.
  replace (List.length (memory a) - Z.to_nat 50) with 0 in Hload by lia.
  simpl in Hload. rewrite Hload.
  destruct (memory a) as [|m ms] eqn:Hm; [contradiction|]. simpl. exact Hmir.
Qed.

Lemma restart_restores_history_witness :
  Forall (fun m => row_of m = m) ([] : list Message)
  /\ Forall (fun input => trim input <> reset_sentinel) ["hello"]
  /\ List.length (memory (outcome_agent
        (run_agent_loop json_from_str demo_model demo_tools demo_schema (Ok tt) [] 5 ["hello"])))
     <= 50
  /\ chat_history (snd (startup demo_schema (Ok tt)
       (memory (outcome_agent
          (run_agent_loop json_from_str demo_model demo_tools demo_schema (Ok tt) [] 5 ["hello"])))))
     = chat_history (outcome_agent
          (run_agent_loop json_from_str demo_model demo_tools demo_schema (Ok tt) [] 5 ["hello"])).
Proof.
  assert (Hrows : Forall (fun m => row_of m = m) ([] : list Message)) by constructor.
  assert (Hin : Forall (fun input => trim input <> reset_sentinel) ["hello"]).
  { constructor; [vm_compute; discriminate|constructor]. }
  assert (Hsmall : List.length (memory (outcome_agent
        (run_agent_loop json_from_str demo_model demo_tools demo_schema (Ok tt) [] 5 ["hello"])))
     <= 50) by (vm_compute; lia).
  split; [exact Hrows|split; [exact Hin|split; [exact Hsmall|]]].
  apply (restart_restores_history json_from_str demo_model demo_tools demo_schema tt tt [] 5
           ["hello"] Hrows Hin Hsmall).
Defined.

(* ------------------------------------------------------------------ *)
(** ** Further properties of the store (memory.rs) *)

(** Save then load: right after [save_message], any positive limit
    loads the saved message as the newest one, as a row: role and content
    kept, images dropped. *)
Theorem save_then_load (db : list Message) (m : Message) (limit : Z)
    (Hlimit : (1 <= limit)%Z) :
  last (get_recent_history (save_message db m) limit) = Some (msg (role m) (content m)).
Proof.
  rewrite get_recent_history_drop by lia. unfold save_message.
  rewrite map_app. cbn [map]. rewrite drop_app_le.
  - rewrite last_snoc. reflexivity.
  - rewrite length_app, length_map. simpl. lia.
Qed.

Lemma save_then_load_witness :
  (1 <= 1)%Z
  /\ last (get_recent_history (save_message [] (mkMessage "user" "look" (Some ["img"]))) 1)
     = Some (msg (role (mkMessage "user" "look" (Some ["img"])))
                 (content (mkMessage "user" "look" (Some ["img"])))).
Proof.
  split; [lia|].
  apply (save_then_load [] (mkMessage "user" "look" (Some ["img"])) 1). lia.
Defined.

(* ------------------------------------------------------------------ *)
(** ** Further properties of the dispatcher (tools.rs) *)

(** A dispatcher built by [register] only holds each tool under its own
    name. *)
Lemma register_fold_keys (ts : list Tool) (m : gmap string Tool) :
  map_Forall (fun k t => tool_name t = k) m ->
  map_Forall (fun k t => tool_name t = k) (fold_left register ts m).
Proof.
  induction ts as [|t ts IH] in m |- *; intros Hm; simpl; [exact Hm|].
  apply IH. unfold register. apply map_Forall_insert_2; [reflexivity|exact Hm].
Qed.

(** The names a dispatcher built by [register] knows: those it had and
    those of the registered tools. *)
Lemma register_fold_names (ts : list Tool) (m : gmap string Tool) (n : string) :
  is_Some (fold_left register ts m !! n)
  <-> is_Some (m !! n) \/ exists t, In t ts /\ tool_name t = n.
Proof.
  induction ts as [|t ts IH] in m |- *; simpl.
  - split; [auto|]. intros [H|(t & [] & _)]. exact H.
  - rewrite IH. unfold register. rewrite lookup_insert_is_Some.
    split.
    + intros [[<-|[_ H]]|(t' & Hin & <-)]; eauto.
    + intros [H|(t' & [<-|Hin] & <-)]; [|left; left; reflexivity|eauto].
      destruct (decide (tool_name t = n)) as [<-|Hne]; [left; left; reflexivity|].
      left; right; auto.
Qed.

(** [get_tools_schema] after registering any list of tools: one entry per
    registered name (no name twice), each entry describing the very tool
    that [execute] runs under that name. *)
Theorem tools_schema_one_entry_per_name (ts0 : list Tool) :
  let tools := fold_left register ts0 dispatcher_new in
  exists ts, get_tools_schema tools = VArr (map tool_schema_entry ts)
    /\ NoDup (map tool_name ts)
    /\ (forall t, In t ts -> tools !! tool_name t = Some t)
    /\ (forall n, (exists t, In t ts /\ tool_name t = n)
                  <-> (exists t, In t ts0 /\ tool_name t = n)).
Proof.
  cbn zeta. set (tools := fold_left register ts0 dispatcher_new).
  assert (Hkeys : map_Forall (fun k t => tool_name t = k) tools).
  { apply register_fold_keys. apply map_Forall_empty. }
  assert (Hfst : forall kv, In kv (map_to_list tools) -> tool_name kv.2 = kv.1).
  { intros [k t] Hin. apply list_elem_of_In, elem_of_map_to_list in Hin.
    exact (Hkeys k t Hin). }
  exists (map snd (map_to_list tools)). split; [|split; [|split]].
  - unfold get_tools_schema. rewrite map_map. reflexivity.
  - rewrite map_map. erewrite map_ext_in; [apply NoDup_fst_map_to_list|].
    intros kv Hin. exact (Hfst kv Hin).
  - intros t Hin. apply in_map_iff in Hin as ([k t'] & <- & Hin).
    rewrite (Hfst _ Hin). apply elem_of_map_to_list, list_elem_of_In. exact Hin.
  - intros n. transitivity (is_Some (tools !! n)).
    + split.
      * intros (t & Hin & <-). apply in_map_iff in Hin as ([k t'] & <- & Hin).
        simpl. exists t'. apply list_elem_of_In, elem_of_map_to_list in Hin.
        rewrite (Hkeys k t' Hin). exact Hin.
      * intros [t Ht]. exists t. split; [|exact (Hkeys n t Ht)].
        apply in_map_iff. exists (n, t). split; [reflexivity|].
        apply list_elem_of_In, elem_of_map_to_list. exact Ht.
    + unfold tools. rewrite register_fold_names. unfold dispatcher_new.
      rewrite lookup_empty. split; [|auto].
      intros [[x Hx]|H]; [discriminate Hx|exact H].
Qed.

(* ------------------------------------------------------------------ *)
(** ** Properties of [InputTool::execute] (system/input.rs) *)

(** The device is only driven for one of the five known actions, and only
    once [Enigo::new] has succeeded. *)
Theorem input_device_needs_known_action (enigo_new : Result unit)
    (enigo_run : InputAction -> Result unit) (to_lowercase : string -> string)
    (first_char : string -> option string) (args : Value)
    (Htrace : (input_execute enigo_new enigo_run to_lowercase first_char args).2 <> []) :
  exists action u, as_str (index args "action") = Some action /\ enigo_new = Ok u
    /\ In action ["type"; "key_click"; "mouse_move"; "mouse_click"; "scroll"].
Proof.
  unfold input_execute in Htrace.
  destruct (as_str (index args "action")) as [action|]; [|contradiction Htrace; reflexivity].
  destruct enigo_new as [u|e]; [|contradiction Htrace; reflexivity].
  exists action, u. split; [reflexivity|split; [reflexivity|]].
  destruct (action =? "type") eqn:E1; [apply String.eqb_eq in E1; subst; simpl; auto 10|].
  destruct (action =? "key_click") eqn:E2; [apply String.eqb_eq in E2; subst; simpl; auto 10|].
  destruct (action =? "mouse_move") eqn:E3; [apply String.eqb_eq in E3; subst; simpl; auto 10|].
  destruct (action =? "mouse_click") eqn:E4; [apply String.eqb_eq in E4; subst; simpl; auto 10|].
  destruct (action =? "scroll") eqn:E5; [apply String.eqb_eq in E5; subst; simpl; auto 10|].
  contradiction Htrace. reflexivity.
Qed.

Lemma input_device_needs_known_action_witness :
  (input_execute (Ok tt) (fun _ => Ok tt) (fun s => s) ascii_first
     (VObj [("action", VStr "type"); ("text", VStr "hi")])).2 <> []
  /\ exists action u,
     as_str (index (VObj [("action", VStr "type"); ("text", VStr "hi")]) "action") = Some action
     /\ Ok tt = Ok u
     /\ In action ["type"; "key_click"; "mouse_move"; "mouse_click"; "scroll"].
Proof.
  assert (H : (input_execute (Ok tt) (fun _ => Ok tt) (fun s => s) ascii_first
                 (VObj [("action", VStr "type"); ("text", VStr "hi")])).2 <> [])
    by (vm_compute; discriminate).
  split; [exact H|].
  exact (input_device_needs_known_action (Ok tt) (fun _ => Ok tt) (fun s => s) ascii_first
           (VObj [("action", VStr "type"); ("text", VStr "hi")]) H).
Defined.

(** [n as i32] on an i64: a value in the i32 range, congruent to [n]
    modulo 2^32. *)
Lemma i64_as_i32_spec (z : Z) :
  (- 2 ^ 31 <= i64_as_i32 z < 2 ^ 31)%Z /\ ((i64_as_i32 z - z) mod 2 ^ 32 = 0)%Z.
Proof.
  unfold i64_as_i32.
  change (2 ^ 32)%Z with 4294967296%Z. change (2 ^ 31)%Z with 2147483648%Z.
  pose proof (Z.mod_pos_bound z 4294967296 ltac:(lia)) as Hb.
  pose proof (Z.div_mod z 4294967296 ltac:(lia)) as Hd.
  destruct (Z.leb_spec 2147483648 (z mod 4294967296)); (split; [lia|]).
  - replace (z mod 4294967296 - 4294967296 - z)%Z
      with ((- (z / 4294967296) - 1) * 4294967296)%Z by lia.
    apply Z.mod_mul. lia.
  - replace (z mod 4294967296 - z)%Z with ((- (z / 4294967296)) * 4294967296)%Z by lia.
    apply Z.mod_mul. lia.
Qed.

(** Once [Enigo::new] has succeeded, [mouse_move] makes exactly one move
    call, to coordinates in the i32 range: each is the given integer
    wrapped modulo 2^32 (a missing coordinate, a float, any other
    non-integer or an integer out of the i64 range counts as 0). *)
Theorem mouse_move_wraps_to_i32 (enigo_new : Result unit)
    (enigo_run : InputAction -> Result unit) (to_lowercase : string -> string)
    (first_char : string -> option string) (args : Value) (u : unit)
    (Hact : as_str (index args "action") = Some "mouse_move")
    (Hnew : enigo_new = Ok u) :
  exists x y, (input_execute enigo_new enigo_run to_lowercase first_char args).2 = [AMove x y]
    /\ (- 2 ^ 31 <= x < 2 ^ 31)%Z
    /\ ((x - unwrap_or (as_i64 (index args "x")) 0%Z) mod 2 ^ 32 = 0)%Z
    /\ (- 2 ^ 31 <= y < 2 ^ 31)%Z
    /\ ((y - unwrap_or (as_i64 (index args "y")) 0%Z) mod 2 ^ 32 = 0)%Z.
Proof.
  unfold input_execute. rewrite Hact, Hnew. cbn -[i64_as_i32 z_to_string perform].
  exists (i64_as_i32 (unwrap_or (as_i64 (index args "x")) 0%Z)),
         (i64_as_i32 (unwrap_or (as_i64 (index args "y")) 0%Z)).
  destruct (i64_as_i32_spec (unwrap_or (as_i64 (index args "x")) 0%Z)) as [Hx1 Hx2].
  destruct (i64_as_i32_spec (unwrap_or (as_i64 (index args "y")) 0%Z)) as [Hy1 Hy2].
  split; [unfold perform; destruct (enigo_run _); reflexivity|].
  auto.
Qed.

Lemma mouse_move_wraps_to_i32_witness :
  let args := VObj [("action", VStr "mouse_move"); ("x", VNum (2 ^ 32 + 5)); ("y", VFloat 15 (-1))] in
  as_str (index args "action") = Some "mouse_move" /\ (Ok tt : Result unit) = Ok tt
  /\ (input_execute (Ok tt) (fun _ => Ok tt) (fun s => s) ascii_first args).2 = [AMove 5 0]
  /\ exists x y,
     (input_execute (Ok tt) (fun _ => Ok tt) (fun s => s) ascii_first args).2 = [AMove x y]
     /\ (- 2 ^ 31 <= x < 2 ^ 31)%Z
     /\ ((x - unwrap_or (as_i64 (index args "x")) 0%Z) mod 2 ^ 32 = 0)%Z
     /\ (- 2 ^ 31 <= y < 2 ^ 31)%Z
     /\ ((y - unwrap_or (as_i64 (index args "y")) 0%Z) mod 2 ^ 32 = 0)%Z.
Proof.
  cbn zeta. split; [reflexivity|split; [reflexivity|split; [vm_compute; reflexivity|]]].
  apply (mouse_move_wraps_to_i32 (Ok tt) (fun _ => Ok tt) (fun s => s) ascii_first
           (VObj [("action", VStr "mouse_move"); ("x", VNum (2 ^ 32 + 5)); ("y", VFloat 15 (-1))]) tt);
    reflexivity.
Defined.

(** [scroll] with every device call succeeding: the horizontal scroll
    comes first, an axis whose amount is 0 after the i32 cast gets no
    call at all, and the result reports both amounts. *)
Theorem scroll_skips_zero_axes (enigo_new : Result unit)
    (enigo_run : InputAction -> Result unit) (to_lowercase : string -> string)
    (first_char : string -> option string) (args : Value) (u : unit)
    (Hact : as_str (index args "action") = Some "scroll")
    (Hnew : enigo_new = Ok u)
    (Hrun : forall act, enigo_run act = Ok tt) :
  let x := i64_as_i32 (unwrap_or (as_i64 (index args "scroll_x")) 0%Z) in
  let y := i64_as_i32 (unwrap_or (as_i64 (index args "scroll_y")) 0%Z) in
  input_execute enigo_new enigo_run to_lowercase first_char args
  = (Ok ("Scrolled " ++ z_to_string x ++ ", " ++ z_to_string y),
     app (if (x =? 0)%Z then [] else [AScroll x Horizontal])
         (if (y =? 0)%Z then [] else [AScroll y Vertical])).
Proof.
  cbn zeta. unfold input_execute. rewrite Hact, Hnew. cbn -[i64_as_i32 z_to_string perform].
  destruct (i64_as_i32 (unwrap_or (as_i64 (index args "scroll_x")) 0%Z) =? 0)%Z;
    destruct (i64_as_i32 (unwrap_or (as_i64 (index args "scroll_y")) 0%Z) =? 0)%Z;
    unfold perform; rewrite ?Hrun; reflexivity.
Qed.

Lemma scroll_skips_zero_axes_witness :
  let args := VObj [("action", VStr "scroll"); ("scroll_x", VNum (2 ^ 32)); ("scroll_y", VNum 3)] in
  as_str (index args "action") = Some "scroll" /\ (Ok tt : Result unit) = Ok tt
  /\ (forall act : InputAction, (fun _ : InputAction => Ok tt : Result unit) act = Ok tt)
  /\ input_execute (Ok tt) (fun _ => Ok tt) (fun s => s) ascii_first args
     = (Ok ("Scrolled "
            ++ z_to_string (i64_as_i32 (unwrap_or (as_i64 (index args "scroll_x")) 0%Z)) ++ ", "
            ++ z_to_string (i64_as_i32 (unwrap_or (as_i64 (index args "scroll_y")) 0%Z))),
        app (if (i64_as_i32 (unwrap_or (as_i64 (index args "scroll_x")) 0%Z) =? 0)%Z then []
             else [AScroll (i64_as_i32 (unwrap_or (as_i64 (index args "scroll_x")) 0%Z))
                     Horizontal])
            (if (i64_as_i32 (unwrap_or (as_i64 (index args "scroll_y")) 0%Z) =? 0)%Z then []
             else [AScroll (i64_as_i32 (unwrap_or (as_i64 (index args "scroll_y")) 0%Z))
                     Vertical])).
Proof.
  cbn zeta. split; [reflexivity|split; [reflexivity|split; [reflexivity|]]].
  exact (scroll_skips_zero_axes (Ok tt) (fun _ => Ok tt) (fun s => s) ascii_first
           (VObj [("action", VStr "scroll"); ("scroll_x", VNum (2 ^ 32)); ("scroll_y", VNum 3)])
           tt eq_refl eq_refl (fun _ => eq_refl)).
Defined.

(** Once [Enigo::new] has succeeded, [key_click] with no key, or an empty
    one, drives nothing and fails with ["Unknown key: "] (given that lowercasing the empty string gives
    the empty string, which has no first character, as in Rust). *)
Theorem key_click_empty_key (enigo_new : Result unit)
    (enigo_run : InputAction -> Result unit) (to_lowercase : string -> string)
    (first_char : string -> option string) (args : Value) (u : unit)
    (Hact : as_str (index args "action") = Some "key_click")
    (Hnew : enigo_new = Ok u)
    (Hkey : as_str (index args "key") = None \/ as_str (index args "key") = Some "")
    (Hlow : to_lowercase "" = "") (Hfirst : first_char "" = None) :
  input_execute enigo_new enigo_run to_lowercase first_char args = (Err "Unknown key: ", []).
Proof.
  unfold input_execute. rewrite Hact, Hnew. cbn -[key_of].
  assert (Hk : unwrap_or (as_str (index args "key")) "" = "") by (destruct Hkey as [-> | ->]; reflexivity).
  rewrite Hk. unfold key_of. rewrite Hlow, Hfirst. reflexivity.
Qed.

Lemma key_click_empty_key_witness :
  let args := VObj [("action", VStr "key_click")] in
  as_str (index args "action") = Some "key_click" /\ (Ok tt : Result unit) = Ok tt
  /\ (as_str (index args "key") = None \/ as_str (index args "key") = Some "")
  /\ (fun s : string => s) "" = "" /\ ascii_first "" = None
  /\ input_execute (Ok tt) (fun _ => Ok tt) (fun s => s) ascii_first args
     = (Err "Unknown key: ", []).
Proof.
  cbn zeta. split; [reflexivity|split; [reflexivity|split; [left; reflexivity|]]].
  split; [reflexivity|split; [reflexivity|]].
  apply (key_click_empty_key (Ok tt) (fun _ => Ok tt) (fun s => s) ascii_first
           (VObj [("action", VStr "key_click")]) tt); auto.
Defined.

(* ------------------------------------------------------------------ *)
(** ** Properties of [FileSystemTool::execute] (system/files.rs) *)

(** The only write the tool ever makes is for the [write_file] action, to
    the path [validate_path] accepted for the given [path], with the given
    [content] (the empty string when it is missing or not a string). *)
Theorem fs_writes_only_validated (validate_path : string -> Result string)
    (read_to_string : string -> Result string) (fs_write : string -> string -> Result unit)
    (read_dir : string -> Result (list (option string * bool))) (args : Value)
    (p c : string)
    (Hw : In (p, c) (fs_execute validate_path read_to_string fs_write read_dir args).2) :
  exists path_str, as_str (index args "action") = Some "write_file"
    /\ as_str (index args "path") = Some path_str
    /\ validate_path path_str = Ok p
    /\ c = unwrap_or (as_str (index args "content")) "".
Proof.
  unfold fs_execute in Hw.
  destruct (as_str (index args "action")) as [action|]; [|contradiction Hw].
  destruct (as_str (index args "path")) as [path_str|]; [|contradiction Hw].
  destruct (validate_path path_str) as [safe_path|e] eqn:Hv; [|contradiction Hw].
  destruct (action =? "read_file") eqn:E1.
  { destruct (read_to_string safe_path); contradiction Hw. }
  destruct (action =? "write_file") eqn:E2.
  - apply String.eqb_eq in E2. subst action. exists path_str.
    destruct (fs_write safe_path (unwrap_or (as_str (index args "content")) ""));
      destruct Hw as [Hw|[]]; injection Hw as <- <-; auto.
  - destruct (action =? "list_dir").
    + destruct (read_dir safe_path); contradiction Hw.
    + contradiction Hw.
Qed.

Lemma fs_writes_only_validated_witness :
  let args := VObj [("action", VStr "write_file"); ("path", VStr "a.txt")] in
  In ("/ws/a.txt", "") (fs_execute (fun s => Ok ("/ws/" ++ s)) (fun _ => Ok "")
                          (fun _ _ => Ok tt) (fun _ => Ok []) args).2
  /\ exists path_str, as_str (index args "action") = Some "write_file"
       /\ as_str (index args "path") = Some path_str
       /\ (fun s => Ok ("/ws/" ++ s) : Result string) path_str = Ok "/ws/a.txt"
       /\ "" = unwrap_or (as_str (index args "content")) "".
Proof.
  cbn zeta.
  assert (H : In ("/ws/a.txt", "")
                (fs_execute (fun s => Ok ("/ws/" ++ s)) (fun _ => Ok "") (fun _ _ => Ok tt)
                   (fun _ => Ok []) (VObj [("action", VStr "write_file"); ("path", VStr "a.txt")])).2)
    by (left; reflexivity).
  split; [exact H|].
  exact (fs_writes_only_validated (fun s => Ok ("/ws/" ++ s)) (fun _ => Ok "") (fun _ _ => Ok tt)
           (fun _ => Ok []) (VObj [("action", VStr "write_file"); ("path", VStr "a.txt")])
           "/ws/a.txt" "" H).
Defined.

(** [read_file] on a validated path whose content is at most 10000 bytes
    returns the content unchanged, with no write. *)
Theorem fs_read_small_verbatim (validate_path : string -> Result string)
    (read_to_string : string -> Result string) (fs_write : string -> string -> Result unit)
    (read_dir : string -> Result (list (option string * bool))) (args : Value)
    (path_str safe_path content : string)
    (Hact : as_str (index args "action") = Some "read_file")
    (Hpath : as_str (index args "path") = Some path_str)
    (Hv : validate_path path_str = Ok safe_path)
    (Hr : read_to_string safe_path = Ok content)
    (Hlen : String.length content <= 10000) :
  fs_execute validate_path read_to_string fs_write read_dir args = (Returned (Ok content), []).
Proof.
  unfold fs_execute. rewrite Hact, Hpath, Hv. cbn -[read_file_result]. rewrite Hr.
  unfold read_file_result. destruct (Nat.ltb_spec 10000 (String.length content)); [lia|].
  reflexivity.
Qed.

Lemma fs_read_small_verbatim_witness :
  let args := VObj [("action", VStr "read_file"); ("path", VStr "notes.txt")] in
  as_str (index args "action") = Some "read_file"
  /\ as_str (index args "path") = Some "notes.txt"
  /\ (fun s => Ok s : Result string) "notes.txt" = Ok "notes.txt"
  /\ (fun _ => Ok "hello" : Result string) "notes.txt" = Ok "hello"
  /\ String.length "hello" <= 10000
  /\ fs_execute (fun s => Ok s) (fun _ => Ok "hello") (fun _ _ => Ok tt) (fun _ => Ok []) args
     = (Returned (Ok "hello"), []).
Proof.
  cbn zeta.
  assert (Hlen : String.length "hello" <= 10000) by (apply Nat.leb_le; vm_compute; reflexivity).
  split; [reflexivity|split; [reflexivity|split; [reflexivity|split; [reflexivity|]]]].
  split; [exact Hlen|].
  exact (fs_read_small_verbatim (fun s => Ok s) (fun _ => Ok "hello") (fun _ _ => Ok tt)
           (fun _ => Ok []) (VObj [("action", VStr "read_file"); ("path", VStr "notes.txt")])
           "notes.txt" "notes.txt" "hello" eq_refl eq_refl eq_refl eq_refl Hlen).
Defined.

(** [read_file] on a file of more than 10000 bytes whose byte 10000 is a
    UTF-8 continuation byte (the cut falls inside a character) panics
    instead of returning a result. *)
Theorem fs_read_panics_mid_char (validate_path : string -> Result string)
    (read_to_string : string -> Result string) (fs_write : string -> string -> Result unit)
    (read_dir : string -> Result (list (option string * bool))) (args : Value)
    (path_str safe_path content : string) (c : ascii)
    (Hact : as_str (index args "action") = Some "read_file")
    (Hpath : as_str (index args "path") = Some path_str)
    (Hv : validate_path path_str = Ok safe_path)
    (Hr : read_to_string safe_path = Ok content)
    (Hlen : 10000 < String.length content)
    (Hc : String.get 10000 content = Some c)
    (Hcont : nat_of_ascii c / 64 = 2) :
  exists why, fs_execute validate_path read_to_string fs_write read_dir args = (Panicked why, []).
Proof.
  unfold fs_execute. rewrite Hact, Hpath, Hv. cbn -[read_file_result]. rewrite Hr.
  unfold read_file_result. destruct (Nat.ltb_spec 10000 (String.length content)); [|lia].
  unfold is_char_boundary. rewrite Hc, Hcont. eexists. reflexivity.
Qed.

Lemma fs_read_panics_mid_char_witness :
  let args := VObj [("action", VStr "read_file"); ("path", VStr "big.txt")] in
  as_str (index args "action") = Some "read_file"
  /\ as_str (index args "path") = Some "big.txt"
  /\ (fun s => Ok s : Result string) "big.txt" = Ok "big.txt"
  /\ (fun _ => Ok big_file : Result string) "big.txt" = Ok big_file
  /\ 10000 < String.length big_file
  /\ String.get 10000 big_file = Some (ascii_of_nat 169)
  /\ nat_of_ascii (ascii_of_nat 169) / 64 = 2
  /\ exists why, fs_execute (fun s => Ok s) (fun _ => Ok big_file) (fun _ _ => Ok tt)
                   (fun _ => Ok []) args = (Panicked why, []).
Proof.
  cbn zeta.
  assert (Hlen : 10000 < String.length big_file) by (apply Nat.ltb_lt; vm_compute; reflexivity).
  assert (Hc : String.get 10000 big_file = Some (ascii_of_nat 169)) by (vm_compute; reflexivity).
  assert (Hcont : nat_of_ascii (ascii_of_nat 169) / 64 = 2) by (vm_compute; reflexivity).
  split; [reflexivity|split; [reflexivity|split; [reflexivity|split; [reflexivity|]]]].
  split; [exact Hlen|split; [exact Hc|split; [exact Hcont|]]].
  exact (fs_read_panics_mid_char (fun s => Ok s) (fun _ => Ok big_file) (fun _ _ => Ok tt)
           (fun _ => Ok []) (VObj [("action", VStr "read_file"); ("path", VStr "big.txt")])
           "big.txt" "big.txt" big_file (ascii_of_nat 169) eq_refl eq_refl eq_refl eq_refl
           Hlen Hc Hcont).
Defined.

(* ------------------------------------------------------------------ *)
(** ** Properties of [BrowserTool::execute] (system/browser.rs) *)

(** The browser step is reached exactly for the action ["navigate"] with
    a string URL; every other argument set returns an error before any
    launch. *)
Theorem browser_launch_needs_navigate (browse : string -> Result (string * string))
    (args : Value) :
  ((browser_execute browse args).2 = true
   <-> as_str (index args "action") = Some "navigate"
       /\ exists url, as_str (index args "url") = Some url)
  /\ ((browser_execute browse args).2 = false
      -> exists e, (browser_execute browse args).1 = Err e).
Proof.
  unfold browser_execute.
  destruct (as_str (index args "action")) as [action|];
    [|split; [split; [discriminate|intros [H _]; discriminate H]|eauto]].
  destruct (as_str (index args "url")) as [url|];
    [|split; [split; [discriminate|intros [_ [u H]]; discriminate H]|eauto]].
  destruct (action =? "navigate") eqn:E; simpl.
  - apply String.eqb_eq in E. subst action.
    destruct (browse url) as [[title content]|e]; simpl;
      (split; [split; [eauto|reflexivity]|discriminate]).
  - split; [split; [discriminate|]|eauto].
    intros [H _]. injection H as ->. discriminate E.
Qed.

(* ------------------------------------------------------------------ *)
(** ** Properties of [LocalLlmClient::format_prompt] (llm/local.rs) *)

Lemma str_app_assoc (s1 s2 s3 : string) : (s1 ++ s2) ++ s3 = s1 ++ (s2 ++ s3).
Proof.
  induction s1 as [|c s1 IH]; [reflexivity|].
  change (String c ((s1 ++ s2) ++ s3) = String c (s1 ++ s2 ++ s3)). f_equal. exact IH.
Qed.

Lemma str_app_nil_r (s : string) : s ++ "" = s.
Proof.
  induction s as [|c s IH]; [reflexivity|].
  change (String c (s ++ "") = String c s). f_equal. exact IH.
Qed.

(** Messages whose role is none of system, user and assistant leave no
    trace in the prompt: dropping them gives the same prompt. *)
Theorem format_prompt_drops_unknown_roles (messages : list Message) :
  format_prompt (List.filter (fun m => (role m =? "system") || (role m =? "user")
                                       || (role m =? "assistant")) messages)
  = format_prompt messages.
Proof.
  unfold format_prompt. f_equal.
  assert (H : forall acc, fold_left (fun prompt m => prompt ++ prompt_segment m)
    (List.filter (fun m => (role m =? "system") || (role m =? "user")
                           || (role m =? "assistant")) messages) acc
    = fold_left (fun prompt m => prompt ++ prompt_segment m) messages acc);
    [|apply H].
  induction messages as [|m ms IH]; intros acc; simpl; [reflexivity|].
  destruct ((role m =? "system") || (role m =? "user") || (role m =? "assistant")) eqn:Hk;
    simpl; [apply IH|].
  apply orb_false_iff in Hk as [Hk Ha]. apply orb_false_iff in Hk as [Hs Hu].
  assert (Hseg : prompt_segment m = "") by (unfold prompt_segment; rewrite Hs, Hu, Ha; reflexivity).
  rewrite Hseg, str_app_nil_r. apply IH.
Qed.

(** The content is inserted with no escaping: a user message containing
    the end marker followed by a system header gives exactly the prompt
    of a user message and a system message, wherever it sits in the
    conversation. *)
Theorem format_prompt_content_unescaped (before after : list Message) (a x : string) :
  format_prompt (app before
    (msg "user" (a ++ "<|im_end|>" ++ nl ++ "<|im_start|>system" ++ nl ++ x) :: after))
  = format_prompt (app before (msg "user" a :: msg "system" x :: after)).
Proof.
  unfold format_prompt. rewrite !fold_left_app. simpl. f_equal. f_equal.
  unfold prompt_segment. simpl. rewrite !str_app_assoc. reflexivity.
Qed.
